(** * stock-market: the algotrader data sources (Alpha Vantage, Robinhood markets)

    A shallow embedding of [objects/data/AlphaVantage.js] and of the
    [Market] class, with the properties of the response handling, the
    time-series flattening, the indicator queries and the trading-calendar
    search. *)

From Stdlib Require Import ZArith List String Ascii Bool Lia.
From Stdlib Require Import Sorted Permutation DecimalString.
Import ListNotations.

#[local] Open Scope string_scope.
#[local] Open Scope Z_scope.
#[local] Set Warnings "-register-all".

(* ================================================================== *)
(** * JavaScript values *)
(* ================================================================== *)

Module Js.

(** What [JSON.parse] can return.  [JObj] lists the own properties in the
    order [Object.keys] and [for ... in] enumerate them.  A number is an
    integer here: no property below computes with a fraction. *)
Inductive Json : Type :=
| JNull
| JBool (b : bool)
| JNum (n : Z)
| JStr (s : string)
| JArr (elems : list Json)
| JObj (props : list (string * Json)).

(** A JavaScript value that may be [undefined] ([None]). *)
Definition Value : Type := option Json.

Definition undefined : Value := None.
Definition null : Value := Some JNull.

(** Exceptions the embedded code can raise. *)
Inductive Exn : Type :=
| TypeError
| SyntaxError.

(** [if (v)], [v ? a : b], [Boolean(v)]. *)
Definition truthy (v : Value) : bool :=
  match v with
  | None => false
  | Some JNull => false
  | Some (JBool b) => b
  | Some (JNum n) => negb (n =? 0)
  | Some (JStr s) => negb (s =? "")%string
  | Some (JArr _) => true
  | Some (JObj _) => true
  end.

(** [v !== null]. *)
Definition is_not_null (v : Value) : bool :=
  match v with
  | Some JNull => false
  | _ => true
  end.

(** [hay.startsWith(needle)], the test [indexOf] makes at each position. *)
Fixpoint startsWith (needle hay : string) : bool :=
  match needle, hay with
  | EmptyString, _ => true
  | String _ _, EmptyString => false
  | String a needle', String b hay' => Ascii.eqb a b && startsWith needle' hay'
  end.

Fixpoint indexOf_from (needle hay : string) (i : Z) : Z :=
  if startsWith needle hay then i
  else match hay with
       | EmptyString => -1
       | String _ hay' => indexOf_from needle hay' (i + 1)
       end.

(** [hay.indexOf(needle)]: the first position of [needle], or [-1]. *)
Definition indexOf (hay needle : string) : Z := indexOf_from needle hay 0.

(** [needle] occurs in [hay]. *)
Definition contains (hay needle : string) : Prop :=
  exists before after, hay = before ++ needle ++ after.

(** The decimal spelling of an array index. *)
Definition index_key (i : nat) : string :=
  NilEmpty.string_of_uint (Nat.to_uint i).

Fixpoint indexed {A : Type} (i : nat) (l : list A) : list (string * A) :=
  match l with
  | [] => []
  | x :: l' => (index_key i, x) :: indexed (S i) l'
  end.

Fixpoint chars (s : string) : list Json :=
  match s with
  | EmptyString => []
  | String c s' => JStr (String c EmptyString) :: chars s'
  end.

(** The own enumerable properties of a value, in enumeration order: the
    properties of an object, the elements of an array under their indices,
    the characters of a string; nothing for the other primitives. *)
Definition own_entries (j : Json) : list (string * Json) :=
  match j with
  | JObj props => props
  | JArr elems => indexed 0 elems
  | JStr s => indexed 0 (chars s)
  | _ => []
  end.

(** [for (const key in v)]: no iteration over [undefined] or [null]. *)
Definition for_in (v : Value) : list (string * Json) :=
  match v with
  | None => []
  | Some j => own_entries j
  end.

(** [Object.keys(v)] throws on [undefined] and [null]. *)
Definition Object_keys (v : Value) : Exn + list string :=
  match v with
  | None | Some JNull => inl TypeError
  | Some j => inr (map fst (own_entries j))
  end.

Fixpoint assoc {A : Type} (k : string) (l : list (string * A)) : option A :=
  match l with
  | [] => None
  | (k', x) :: l' => if (k =? k')%string then Some x else assoc k l'
  end.

(** The names that every object inherits from [Object.prototype]. *)
Definition inherited : list string :=
  ["constructor"; "hasOwnProperty"; "isPrototypeOf"; "propertyIsEnumerable";
   "toLocaleString"; "toString"; "valueOf"; "__proto__";
   "__defineGetter__"; "__defineSetter__"; "__lookupGetter__";
   "__lookupSetter__"].

Definition is_inherited (k : string) : bool := existsb (String.eqb k) inherited.

(** [v[k]]: an own property, [undefined] when there is none, a
    [TypeError] on [undefined] and [null].  This is what [v[k]] gives for
    every name that is an own property or that no prototype defines; the
    methods an object inherits are not values of the model. *)
Definition get (v : Value) (k : string) : Exn + Value :=
  match v with
  | None | Some JNull => inl TypeError
  | Some j => inr (assoc k (own_entries j))
  end.

(** [a[i]] on an array of keys: [undefined] past the end. *)
Definition key_at (keys : list string) (i : nat) : option string :=
  nth_error keys i.

(** A key used in [v[k]] is converted to a string: [undefined] reads the
    property called "undefined". *)
Definition property_key (k : option string) : string :=
  match k with
  | None => "undefined"
  | Some s => s
  end.

(** An object literal or a query object under assignment [o[k] = v]: an
    existing key keeps its place, a new key goes last (no key assigned
    here is an array index). *)
Fixpoint set {A : Type} (k : string) (v : A) (o : list (string * A))
  : list (string * A) :=
  match o with
  | [] => [(k, v)]
  | (k', x) :: o' =>
      if (k =? k')%string then (k', v) :: o' else (k', x) :: set k v o'
  end.

(** A [Date] object: its time value in milliseconds, or an invalid date. *)
Inductive JsDate : Type :=
| InvalidDate
| DateAt (ms : Z).

End Js.

Import Js.

(* ================================================================== *)
(** * The host: builtins, libraries and the network *)
(* ================================================================== *)

(** The builtins of the language and of [moment] that the code calls.
    They are parameters of the development. *)
Class Runtime : Type := {
  (** the type of JavaScript numbers, and [Number(v)] *)
  JsNumber : Type;
  Number : Value -> JsNumber;
  (** [JSON.parse(body)]; [None] when it throws a [SyntaxError] *)
  JSON_parse : string -> option Json;
  (** [JSON.stringify(o)] *)
  JSON_stringify : Json -> string;
  (** [new Date(v)] *)
  Date_new : Value -> JsDate;
  (** [String(v)] *)
  js_String : Value -> string;
  (** [moment(t).add(days, 'days')] on an instant in milliseconds *)
  moment_add_days : Z -> Z -> Z;
  (** [moment(t).format("YYYY-MM-DD")] *)
  moment_format : Z -> string
}.

(** A request handed to the [request] module. *)
Record Request : Type := {
  uri : Value;
  qs : option (list (string * Value))
}.

(** What the callback of [request] receives: an error, or a response with
    its status code and body. *)
Inductive TransportOutcome : Type :=
| TransportError (cause : string)
| HttpResult (statusCode : Z) (rawBody : string).

(** What a promise is rejected with. *)
Inductive Reason : Type :=
| TransportCause (cause : string)       (* reject(error) *)
| LibraryError (message : string)       (* new LibraryError("..."), a class
                                           outside the sources *)
| RawBody (body : string)               (* reject(body) *)
| Thrown (e : Exn)                      (* an exception caught by a promise *)
| Malformed (body : string)             (* a body that is not JSON *)
| LibraryErrorOf (inner : Reason).      (* new LibraryError(error) *)

(** The outside world: the answer of the network to each request, and the
    instant the clock shows at its k-th reading. *)
Class World : Type := {
  net : Request -> TransportOutcome;
  clock : nat -> Z
}.

(** The state the code acts on: how often the clock was read, and the
    requests sent so far, oldest first. *)
Record State : Type := {
  ticks : nat;
  sent : list Request
}.

(** How a promise ends.  [Uncaught]: an exception left a callback of
    [request], so neither [resolve] nor [reject] is ever called.
    [Pending]: the loop is still running when the fuel is spent. *)
Inductive Outcome (A : Type) : Type :=
| Resolved (a : A)
| Rejected (r : Reason)
| Uncaught (e : Exn)
| Pending.

Arguments Resolved {A} a.
Arguments Rejected {A} r.
Arguments Uncaught {A} e.
Arguments Pending {A}.

Definition Async (A : Type) : Type := State -> Outcome A * State.

(** The state after one more request. *)
Definition after (st : State) (r : Request) : State :=
  {| ticks := ticks st; sent := sent st ++ [r] |}.

(** A request for an address, without a query. *)
Definition plain (address : Value) : Request := {| uri := address; qs := None |}.

Definition ret {A : Type} (a : A) : Async A := fun st => (Resolved a, st).

Definition bind {A B : Type} (m : Async A) (k : A -> Async B) : Async B :=
  fun st =>
    match m st with
    | (Resolved a, st') => k a st'
    | (Rejected r, st') => (Rejected r, st')
    | (Uncaught e, st') => (Uncaught e, st')
    | (Pending, st') => (Pending, st')
    end.

Notation "x <- m ;; k" := (bind m (fun x => k))
  (at level 61, m at next level, right associativity).

Definition reject {A : Type} (r : Reason) : Async A :=
  fun st => (Rejected r, st).

Definition uncaught {A : Type} (e : Exn) : Async A :=
  fun st => (Uncaught e, st).

(** [promise.then(f)]: an exception thrown by [f] rejects the promise. *)
Definition then_ {A B : Type} (m : Async A) (f : A -> Exn + B) : Async B :=
  x <- m ;;
  match f x with
  | inl e => reject (Thrown e)
  | inr b => ret b
  end.

(** [promise.catch(h)]. *)
Definition catch_ {A : Type} (m : Async A) (h : Reason -> Async A) : Async A :=
  fun st =>
    match m st with
    | (Rejected r, st') => h r st'
    | other => other
    end.

(** [request(options, callback)]: the request is sent, the callback gets
    the answer of the network. *)
Definition request `{World} (r : Request) : Async TransportOutcome :=
  fun st => (Resolved (net r), after st r).

(** [moment()]: one reading of the clock. *)
Definition moment `{World} : Async Z :=
  fun st =>
    (Resolved (clock (ticks st)), {| ticks := S (ticks st); sent := sent st |}).

(** Sequencing in the code that may throw. *)
Definition bindE {A B : Type} (m : Exn + A) (k : A -> Exn + B) : Exn + B :=
  match m with
  | inl e => inl e
  | inr a => k a
  end.

Notation "x <~ m ;; k" := (bindE m (fun x => k))
  (at level 61, m at next level, right associativity).

(* ================================================================== *)
(** * AlphaVantage *)
(* ================================================================== *)

Module AlphaVantage.

Section Client.
Context `{Runtime} `{World}.

(** The instance: [this.apiKey] and [this.url]. *)
Variable apiKey : Value.

Definition url : string := "https://www.alphavantage.co/query".

(** The text that marks the error page of the vendor. *)
Definition marker : string := "application-error.html".

Definition overloaded : Reason :=
  LibraryError "The Alpha Vantage servers are overloaded. Please try again.".

(** The callback of [_requester] once the answer is there. *)
Definition _requester_callback (objectKeyOverride : option string)
    (answer : TransportOutcome) : Async Value :=
  match answer with
  | TransportError cause => reject (TransportCause cause)
  | HttpResult statusCode body =>
      if negb (indexOf body marker =? -1) then
        reject overloaded
      else if negb (statusCode =? 200) then
        reject (RawBody body)
      else
        match JSON_parse body with
        | None => uncaught SyntaxError
        | Some json =>
            let objectKey :=
              if truthy (option_map JStr objectKeyOverride)
              then inr objectKeyOverride
              else (keys <~ Object_keys (Some json) ;; inr (key_at keys 1)) in
            match (k <~ objectKey ;; get (Some json) (property_key k)) with
            | inl e => uncaught e
            | inr v => ret v
            end
        end
  end.

(** The request [_requester] sends: the key and the data type are added
    to the query. *)
Definition _requester_request (qs : list (string * Value)) : Request :=
  let qs := set "apikey" apiKey qs in
  let qs := set "datatype" (Some (JStr "json")) qs in
  {| uri := Some (JStr url); qs := Some qs |}.

(** [_requester(qs, objectKeyOverride)]. *)
Definition _requester (qs : list (string * Value))
    (objectKeyOverride : option string) : Async Value :=
  answer <- request (_requester_request qs) ;;
  _requester_callback objectKeyOverride answer.

(** ** Price series *)

Record Price : Type := {
  open : JsNumber;
  high : JsNumber;
  low : JsNumber;
  close : JsNumber;
  volume : JsNumber
}.

(** Modelled from the spec: the class [Quote] ([globals/Quote.js]) is not
    part of the sources; a quote keeps the symbol, the date, the source
    label, the price fields and the original record it is built from. *)
Record Quote : Type := {
  symbol : Value;
  date : JsDate;
  source : string;
  price : Price;
  original : string
}.

(** [_.sortBy(array, 'date')] compares two dates with [>] and [<] on their
    time values; a comparison with an invalid date is false both ways. *)
Definition date_gt (a b : JsDate) : bool :=
  match a, b with
  | DateAt x, DateAt y => y <? x
  | _, _ => false
  end.

Fixpoint insert_by {A : Type} (key : A -> JsDate) (x : A) (l : list A) : list A :=
  match l with
  | [] => [x]
  | y :: l' =>
      if date_gt (key x) (key y) then y :: insert_by key x l'
      else x :: y :: l'
  end.

(** lodash's [_.sortBy]: a stable sort, ascending by the key.  An element
    goes before the elements it does not exceed, so equal keys keep their
    order.  When every key is a valid date there is one such arrangement,
    and it is the one lodash returns; with an invalid date among the keys
    the comparison is not an order and this function settles nothing about
    lodash. *)
Fixpoint sortBy {A : Type} (key : A -> JsDate) (l : list A) : list A :=
  match l with
  | [] => []
  | x :: l' => insert_by key x (sortBy key l')
  end.

(** The order on dates that the sort aims at. *)
Definition date_le (a b : JsDate) : Prop :=
  match a, b with
  | DateAt x, DateAt y => x <= y
  | _, _ => False
  end.

Definition ascending {A : Type} (key : A -> JsDate) (l : list A) : Prop :=
  StronglySorted (fun x y => date_le (key x) (key y)) l.



(** The date a key stands for: [new Date(key)]. *)
Definition key_date (entry : string * Json) : JsDate :=
  Date_new (Some (JStr (fst entry))).


(** The object literal handed to [new Quote] for the bar [o] under [key]. *)
Definition intraday_quote (symbol : Value) (key : string) (o : Json)
  : Exn + Quote :=
  o_open <~ get (Some o) "1. open" ;;
  o_high <~ get (Some o) "2. high" ;;
  o_low <~ get (Some o) "3. low" ;;
  o_close <~ get (Some o) "4. close" ;;
  o_volume <~ get (Some o) "5. volume" ;;
  inr {| symbol := symbol;
         date := Date_new (Some (JStr key));
         source := "Alpha Vantage";
         price := {| open := Number o_open;
                     high := Number o_high;
                     low := Number o_low;
                     close := Number o_close;
                     volume := Number o_volume |};
         original := JSON_stringify o |}.

(** One element pushed per key, in the order of the keys. *)
Fixpoint push_each {A : Type} (f : string -> Json -> Exn + A)
    (entries : list (string * Json)) : Exn + list A :=
  match entries with
  | [] => inr []
  | (key, o) :: rest =>
      x <~ f key o ;;
      xs <~ push_each f rest ;;
      inr (x :: xs)
  end.

(** The loop [for (const key in res) if (res.hasOwnProperty(key)) ...].
    Every key enumerated is an own property, so the test passes.  A
    payload with a property called "hasOwnProperty" hides the method, and
    the call throws in the first iteration. *)
Definition for_own {A : Type} (f : string -> Json -> Exn + A) (res : Value)
  : Exn + list A :=
  match assoc "hasOwnProperty" (for_in res) with
  | Some _ => inl TypeError
  | None => push_each f (for_in res)
  end.

(** The function given to [then] in [timeSeriesIntraday]. *)
Definition intraday_flatten (symbol : Value) (res : Value) : Exn + list Quote :=
  array <~ for_own (intraday_quote symbol) res ;;
  inr (sortBy date array).

Definition intraday_query (symbol interval : Value) : list (string * Value) :=
  [("function", Some (JStr "TIME_SERIES_INTRADAY"));
   ("symbol", symbol);
   ("interval", interval)].

Definition timeSeriesIntraday (symbol interval : Value) : Async (list Quote) :=
  then_ (_requester (intraday_query symbol interval) None)
        (intraday_flatten symbol).

(** ** Technical indicators *)

(** A field of an indicator record: the date, or a value copied from the
    bar. *)
Inductive Field : Type :=
| FDate (d : JsDate)
| FValue (v : Value).

Definition IndicatorRecord : Type := list (string * Field).

(** An extra parameter [{key: ..., val: ...}]. *)
Record Param : Type := {
  key : string;
  val : Value
}.

(** The query object of [_technical] after the [forEach] over [qs]. *)
Definition technical_query (type : string)
    (symbol interval timePeriod seriesType : Value)
    (qs : option (list Param)) : list (string * Value) :=
  let query := [("function", Some (JStr type));
                ("symbol", symbol);
                ("interval", interval);
                ("time_period", timePeriod);
                ("series_type", seriesType)] in
  match qs with
  | None => query
  | Some qs => fold_left (fun query q => set (key q) (val q) query) qs query
  end.

(** [newObject[k] = v] on the record under construction.  The name
    "__proto__" is the accessor of [Object.prototype]: assigning to it adds
    no field (it sets the prototype when [v] is an object or [null], and
    does nothing otherwise).  A record lists the own fields; the prototype
    is not part of it. *)
Definition assign_field (k : string) (v : Field) (newObject : IndicatorRecord)
  : IndicatorRecord :=
  if (k =? "__proto__")%string then newObject else set k v newObject.

(** The record built for the bar [o] under [key]: the date first, then
    every field of the bar. *)
Definition technical_record (key : string) (o : Json) : Exn + IndicatorRecord :=
  ks <~ Object_keys (Some o) ;;
  inr (fold_left
         (fun newObject k =>
            assign_field k (FValue (assoc k (own_entries o))) newObject)
         ks
         [("date", FDate (Date_new (Some (JStr key))))]).

(** The [date] property of a record. *)
Definition record_date (r : IndicatorRecord) : JsDate :=
  match assoc "date" r with
  | Some (FDate d) => d
  | _ => InvalidDate
  end.

(** A bar that is not [null] and has no field called "date", under a key
    other than "hasOwnProperty". *)
Definition plain_bar (entry : string * Json) : bool :=
  negb (fst entry =? "hasOwnProperty")%string
  && match snd entry with
     | JNull => false
     | o => negb (existsb (fun k => (k =? "date")%string) (map fst (own_entries o)))
     end.

(** The function given to [then] in [_technical]: the array is returned
    as it was filled. *)
Definition technical_flatten (res : Value) : Exn + list IndicatorRecord :=
  for_own technical_record res.

Definition _technical (type : string)
    (symbol interval timePeriod seriesType : Value)
    (qs : option (list Param)) : Async (list IndicatorRecord) :=
  then_ (_requester
           (technical_query type symbol interval timePeriod seriesType qs) None)
        technical_flatten.

Definition sma (symbol interval timePeriod seriesType : Value)
  : Async (list IndicatorRecord) :=
  _technical "SMA" symbol interval timePeriod seriesType None.

(** [x !== null ? a : b]. *)
Definition if_not_null (x : Value) (a b : Value) : Value :=
  if is_not_null x then a else b.

Definition num (n : Z) : Value := Some (JNum n).

(** [macd], as the class defines it last (ten parameters); the earlier
    definition with seven parameters is replaced by this one. *)
Definition macd (symbol interval timePeriod seriesType
                 fastPeriod slowPeriod signalPeriod
                 fastMaType slowMaType signalMaType : Value)
  : Async (list IndicatorRecord) :=
  _technical "MACD" symbol interval timePeriod seriesType (Some [
    {| key := "fastperiod"; val := if_not_null fastPeriod fastPeriod (num 12) |};
    {| key := "slowperiod"; val := if_not_null slowPeriod fastPeriod (num 26) |};
    {| key := "signalperiod"; val := if_not_null signalPeriod signalPeriod (num 9) |};
    {| key := "fastmatype"; val := if_not_null fastMaType fastMaType (num 0) |};
    {| key := "slowmatype"; val := if_not_null slowMaType slowMaType (num 0) |};
    {| key := "signalmatype"; val := if_not_null signalMaType signalMaType (num 0) |}
  ]).

Definition stoch (symbol interval timePeriod seriesType
                  fastKPeriod slowKPeriod slowDPeriod
                  slowKmaType slowDmaType : Value)
  : Async (list IndicatorRecord) :=
  _technical "STOCH" symbol interval timePeriod seriesType (Some [
    {| key := "fastkperiod"; val := if_not_null fastKPeriod fastKPeriod (num 12) |};
    {| key := "slowkperiod"; val := if_not_null slowKPeriod slowKPeriod (num 26) |};
    {| key := "slowdperiod"; val := if_not_null slowDPeriod slowDPeriod (num 9) |};
    {| key := "slowkmatype"; val := if_not_null slowKmaType slowKmaType (num 0) |};
    {| key := "slowdmatype"; val := if_not_null slowDmaType slowDmaType (num 0) |}
  ]).

Definition stochf (symbol interval timePeriod seriesType
                   fastKPeriod fastDPeriod fastDmaType : Value)
  : Async (list IndicatorRecord) :=
  _technical "STOCHF" symbol interval timePeriod seriesType (Some [
    {| key := "fastkperiod"; val := if_not_null fastKPeriod fastKPeriod (num 12) |};
    {| key := "fastdperiod"; val := if_not_null fastDPeriod fastDPeriod (num 26) |};
    {| key := "fastdmatype"; val := if_not_null fastDmaType fastDmaType (num 9) |}
  ]).

Definition stochRSI (symbol interval timePeriod seriesType
                     fastKPeriod fastDPeriod fastDmaType : Value)
  : Async (list IndicatorRecord) :=
  _technical "STOCHRSI" symbol interval timePeriod seriesType (Some [
    {| key := "fastkperiod"; val := if_not_null fastKPeriod fastKPeriod (num 12) |};
    {| key := "fastdperiod"; val := if_not_null fastDPeriod fastDPeriod (num 26) |};
    {| key := "fastdmatype"; val := if_not_null fastDmaType fastDmaType (num 9) |}
  ]).

Definition bbands (symbol interval timePeriod seriesType
                   nbdevup nbdevdn matype : Value)
  : Async (list IndicatorRecord) :=
  _technical "BBANDS" symbol interval timePeriod seriesType (Some [
    {| key := "nbdevup"; val := if_not_null nbdevup nbdevup (num 2) |};
    {| key := "nbdevdn"; val := if_not_null nbdevdn nbdevdn (num 2) |};
    {| key := "matype"; val := if_not_null matype matype (num 0) |}
  ]).

(** The extra parameters of a query, in the order emitted: what is
    neither part of the base query nor added by [_requester]. *)
Definition extras (q : list (string * Value)) : list (string * Value) :=
  filter (fun p => negb (existsb (String.eqb (fst p))
                           ["function"; "symbol"; "interval"; "time_period";
                            "series_type"; "apikey"; "datatype"])) q.

(** The query string of the last request sent. *)
Definition last_query (st : State) : list (string * Value) :=
  match rev (sent st) with
  | {| qs := Some q |} :: _ => q
  | _ => []
  end.

(** ** The other requests of the class *)

(** The request of [sectorPerformance], with its query as the literal
    lists it. *)
Definition sector_request : Request :=
  {| uri := Some (JStr url);
     qs := Some [("apikey", apiKey);
                 ("datatype", Some (JStr "json"));
                 ("function", Some (JStr "SECTOR"))] |}.

Definition sectorPerformance : Async Json :=
  answer <- request sector_request ;;
  match answer with
  | TransportError cause => reject (TransportCause cause)
  | HttpResult statusCode body =>
      if negb (indexOf body marker =? -1) then
        reject overloaded
      else if negb (statusCode =? 200) then
        reject (RawBody body)
      else
        match JSON_parse body with
        | None => uncaught SyntaxError
        | Some json => ret json
        end
  end.

(** The [meta] of an adjusted quote. *)
Record Meta : Type := {
  dividendAmount : Value;
  splitCoefficient : Value
}.

(** What [timeSeriesDaily] hands to [new Quote]: the fields of a plain
    quote, and for an adjusted series the adjusted close and the meta
    besides. *)
Inductive DailyQuote : Type :=
| Plain (q : Quote)
| Adjusted (q : Quote) (adjustedClose : JsNumber) (meta : Meta).

Definition daily_date (q : DailyQuote) : JsDate :=
  match q with
  | Plain q => date q
  | Adjusted q _ _ => date q
  end.

Definition adjusted_quote (symbol : Value) (key : string) (o : Json)
  : Exn + DailyQuote :=
  o_open <~ get (Some o) "1. open" ;;
  o_high <~ get (Some o) "2. high" ;;
  o_low <~ get (Some o) "3. low" ;;
  o_close <~ get (Some o) "4. close" ;;
  o_volume <~ get (Some o) "6. volume" ;;
  o_adjusted <~ get (Some o) "5. adjusted close" ;;
  o_dividend <~ get (Some o) "7. dividend amount" ;;
  o_split <~ get (Some o) "8. split coefficient" ;;
  inr (Adjusted
         {| symbol := symbol;
            date := Date_new (Some (JStr key));
            source := "Alpha Vantage";
            price := {| open := Number o_open;
                        high := Number o_high;
                        low := Number o_low;
                        close := Number o_close;
                        volume := Number o_volume |};
            original := JSON_stringify o |}
         (Number o_adjusted)
         {| dividendAmount := o_dividend; splitCoefficient := o_split |}).

(** The literal of the plain branch is the one of [timeSeriesIntraday]. *)
Definition daily_quote (symbol adjusted : Value) (key : string) (o : Json)
  : Exn + DailyQuote :=
  if truthy adjusted then adjusted_quote symbol key o
  else (q <~ intraday_quote symbol key o ;; inr (Plain q)).

Definition daily_flatten (symbol adjusted : Value) (res : Value)
  : Exn + list DailyQuote :=
  array <~ for_own (daily_quote symbol adjusted) res ;;
  inr (sortBy daily_date array).

Definition daily_query (symbol compact adjusted : Value) : list (string * Value) :=
  [("function", Some (JStr (if truthy adjusted then "TIME_SERIES_DAILY_ADJUSTED"
                            else "TIME_SERIES_DAILY")));
   ("symbol", symbol);
   ("outputsize", Some (JStr (if truthy compact then "compact" else "full")))].

Definition timeSeriesDaily (symbol compact adjusted : Value)
  : Async (list DailyQuote) :=
  then_ (_requester (daily_query symbol compact adjusted) None)
        (daily_flatten symbol adjusted).

(** Modelled from the spec: the class [Match] ([globals/Match.js]) is not
    part of the sources; a match passes the fields of a search hit
    through. *)
Record Match : Type := {
  hit : Json
}.

(** A byte that continues a code point in UTF-8 (10xxxxxx). *)
Definition is_continuation (c : ascii) : bool :=
  let n := nat_of_ascii c in (128 <=? n)%nat && (n <? 192)%nat.

(** The code points of a text held as its UTF-8 bytes: each lead byte
    with the continuation bytes that follow it. *)
Fixpoint code_points (s : string) : list string :=
  match s with
  | EmptyString => []
  | String c s' =>
      match code_points s' with
      | String d chunk :: rest =>
          if is_continuation d then String c (String d chunk) :: rest
          else String c EmptyString :: String d chunk :: rest
      | other => String c EmptyString :: other
      end
  end.

(** [for (const data of v)]: the elements of an array; a string, read as
    the UTF-8 bytes of its text, gives one string per code point; no other
    value of the model is iterable. *)
Definition iterate (v : Value) : Exn + list Json :=
  match v with
  | Some (JArr elems) => inr elems
  | Some (JStr s) => inr (map JStr (code_points s))
  | _ => inl TypeError
  end.

Definition search_query (keyword : Value) : list (string * Value) :=
  [("function", Some (JStr "SYMBOL_SEARCH")); ("keywords", keyword)].

Definition search (keyword : Value) : Async (list Match) :=
  then_ (_requester (search_query keyword) (Some "bestMatches"))
        (fun res => hits <~ iterate res ;; inr (map Build_Match hits)).





(** The indicators that pass no default: [mama] hands its two limits on
    as they come, the directional indicators leave the series type out. *)
Definition mama (symbol interval timePeriod seriesType fastLimit slowLimit : Value)
  : Async (list IndicatorRecord) :=
  _technical "MAMA" symbol interval timePeriod seriesType (Some [
    {| key := "fastlimit"; val := fastLimit |};
    {| key := "slowlimit"; val := slowLimit |}
  ]).

Definition minus_di (symbol interval timePeriod : Value)
  : Async (list IndicatorRecord) :=
  _technical "MINUS_DI" symbol interval timePeriod undefined None.

Definition plus_di (symbol interval timePeriod : Value)
  : Async (list IndicatorRecord) :=
  _technical "PLUS_DI" symbol interval timePeriod undefined None.

Definition adx (symbol interval timePeriod : Value)
  : Async (list IndicatorRecord) :=
  _technical "ADX" symbol interval timePeriod undefined None.

End Client.

End AlphaVantage.

(* ================================================================== *)
(** * Market *)
(* ================================================================== *)

Module Market.

(** The result of [Robinhood.handleResponse]: the payload handed to the
    success callback, or the reason handed to [reject]. *)
Inductive Classified : Type :=
| Success (payload : Json)
| Failure (r : Reason).

(** The base class [Robinhood] is not part of the sources.  Its two
    members used by [Market] are parameters: [handleResponse], which
    delivers each answer to exactly one of its two callbacks, given the
    answer and the token argument, and the field [this.url]. *)
Class Robinhood : Type := {
  handleResponse : TransportOutcome -> Value -> Classified;
  robinhood_url : string
}.

Record TradingHours : Type := {
  isOpen : bool;
  close : option JsDate;
  open : option JsDate;
  extendedOpen : option JsDate;
  extendedClose : option JsDate;
  date : JsDate;
  nextTradingDay : string;
  previousTradingDay : string
}.

Record Market : Type := {
  website : string;
  city : string;
  name : string;
  country : string;
  acronym : string;
  timezone : string;
  mic : string;
  hours : TradingHours
}.

Section Class_.
Context `{Runtime} `{World} `{Robinhood}.

(** [x === null ? null : new Date(x)]. *)
Definition date_or_null (x : Value) : option JsDate :=
  match x with
  | Some JNull => None
  | _ => Some (Date_new x)
  end.

Definition parseHours (object : Value) : Exn + TradingHours :=
  is_open <~ get object "is_open" ;;
  closes_at <~ get object "closes_at" ;;
  opens_at <~ get object "opens_at" ;;
  extended_opens_at <~ get object "extended_opens_at" ;;
  extended_closes_at <~ get object "extended_closes_at" ;;
  date <~ get object "date" ;;
  next_open_hours <~ get object "next_open_hours" ;;
  previous_open_hours <~ get object "previous_open_hours" ;;
  inr {| isOpen := truthy is_open;
         close := date_or_null closes_at;
         open := date_or_null opens_at;
         extendedOpen := date_or_null extended_opens_at;
         extendedClose := date_or_null extended_closes_at;
         date := Date_new date;
         nextTradingDay := js_String next_open_hours;
         previousTradingDay := js_String previous_open_hours |}.

(** The constructor.  Its guard [!object instanceof Object] negates first
    and is false for every argument, so it never throws. *)
Definition Market_new (object : Value) : Exn + Market :=
  website <~ get object "website" ;;
  city <~ get object "city" ;;
  name <~ get object "name" ;;
  country <~ get object "country" ;;
  acronym <~ get object "acronym" ;;
  timezone <~ get object "timezone" ;;
  mic <~ get object "mic" ;;
  object_hours <~ get object "hours" ;;
  hours <~ parseHours object_hours ;;
  inr {| website := js_String website;
         city := js_String city;
         name := js_String name;
         country := js_String country;
         acronym := js_String acronym;
         timezone := js_String timezone;
         mic := js_String mic;
         hours := hours |}.

(** [target[k] = v] in strict code (a class body): a [TypeError] on
    [null] and on a primitive.  An array that receives a named property is
    kept as the object of its entries; only named properties are read from
    it afterwards. *)
Definition assign (target : Json) (k : string) (v : Json) : Exn + Json :=
  match target with
  | JObj _ | JArr _ => inr (JObj (set k v (own_entries target)))
  | _ => inl TypeError
  end.

(** [Robinhood.handleResponse(error, response, body, null, k, reject)]. *)
Definition handle {A : Type} (answer : TransportOutcome)
    (k : Json -> Async A) : Async A :=
  match handleResponse answer null with
  | Success payload => k payload
  | Failure r => reject r
  end.

(** Code that runs in a callback of [request]: what it throws is not
    caught. *)
Definition in_callback {A : Type} (x : Exn + A) : Async A :=
  match x with
  | inl e => uncaught e
  | inr a => ret a
  end.

(** The callback of the first request in [getByMIC] and [getByURL]. *)
Definition market_callback (answer : TransportOutcome) : Async Market :=
  handle answer (fun market =>
    todays_hours <- in_callback (get (Some market) "todays_hours") ;;
    answer <- request {| uri := todays_hours; qs := None |} ;;
    handle answer (fun hours =>
      in_callback (market <~ assign market "hours" hours ;;
                   Market_new (Some market)))).

Definition market_request (code : string) : Request :=
  {| uri := Some (JStr ("https://api.robinhood.com/markets/" ++ code ++ "/"));
     qs := None |}.

(** The guard [!code instanceof String] is false for every argument. *)
Definition getByMIC (code : string) : Async Market :=
  answer <- request (market_request code) ;;
  market_callback answer.

Definition getByURL (url : string) : Async Market :=
  answer <- request {| uri := Some (JStr url); qs := None |} ;;
  market_callback answer.

Definition hours_request (this : Market) (date : Z) : Request :=
  let dateString := moment_format date in
  {| uri := Some (JStr (robinhood_url ++ "/markets/" ++ mic this
                          ++ "/hours/" ++ dateString ++ "/"));
     qs := None |}.

Definition getHoursOn (this : Market) (date : Z) : Async TradingHours :=
  answer <- request (hours_request this date) ;;
  handle answer (fun res => in_callback (parseHours (Some res))).

Definition getOpen (this : Market) : option JsDate := open (hours this).
Definition getClose (this : Market) : option JsDate := close (hours this).

(** [moment().isAfter(x)] at the instant [now]: false when [x] is [null]
    or an invalid date. *)
Definition isAfter (now : Z) (x : option JsDate) : bool :=
  match x with
  | Some (DateAt t) => t <? now
  | _ => false
  end.

(** [async.whilst(() => next === null, iteratee, () => resolve(next))].
    [edge] reads [hours.open] or [hours.close].  [days] is set before the
    loop and no iteration assigns it.  [fuel] bounds the iterations. *)
Fixpoint whilst (fuel : nat) (this : Market)
    (edge : TradingHours -> option JsDate) (days : Z) (next : option JsDate)
  : Async JsDate :=
  match next with
  | Some found => ret found
  | None =>
      match fuel with
      | O => fun st => (Pending, st)
      | S fuel' =>
          now <- moment ;;
          let newDate := moment_add_days now days in
          hours <- catch_ (getHoursOn this newDate)
                          (fun error => reject (LibraryErrorOf error)) ;;
          whilst fuel' this edge days (if isOpen hours then edge hours else next)
      end
  end.

Definition getNextOpen (fuel : nat) (this : Market) : Async JsDate :=
  now <- moment ;;
  let days := if isAfter now (getOpen this) then 1 else 0 in
  whilst fuel this open days None.

Definition getNextClose (fuel : nat) (this : Market) : Async JsDate :=
  now <- moment ;;
  let days := if isAfter now (getClose this) then 1 else 0 in
  whilst fuel this close days None.

(** The two searches under the name the specification gives them. *)
Inductive Edge : Type :=
| EdgeOpen
| EdgeClose.

Definition edge_of (edge : Edge) : TradingHours -> option JsDate :=
  match edge with
  | EdgeOpen => open
  | EdgeClose => close
  end.

Definition findNextSession (edge : Edge) (fuel : nat) (this : Market)
  : Async JsDate :=
  match edge with
  | EdgeOpen => getNextOpen fuel this
  | EdgeClose => getNextClose fuel this
  end.

(** What [getHoursOn] ends with for a date; it depends on the answer of
    the network only. *)
Definition hours_reply (this : Market) (date : Z) : Outcome TradingHours :=
  match handleResponse (net (hours_request this date)) null with
  | Success res =>
      match parseHours (Some res) with
      | inl e => Uncaught e
      | inr hours => Resolved hours
      end
  | Failure r => Rejected r
  end.

(** The offset in days that a search starts from at the instant [now]. *)
Definition start_offset (edge : Edge) (this : Market) (now : Z) : Z :=
  if isAfter now (edge_of edge (hours this)) then 1 else 0.

(** The first date a search asks for. *)
Definition first_candidate (edge : Edge) (this : Market) (now : Z) : Z :=
  moment_add_days now (start_offset edge this now).

(** What one iteration of the loop makes of the hours of its date. *)
Definition iteration_outcome (edge : Edge) (reply : Outcome TradingHours)
  : Outcome JsDate :=
  match reply with
  | Resolved hours =>
      match (if isOpen hours then edge_of edge hours else None) with
      | Some found => Resolved found
      | None => Pending
      end
  | Rejected r => Rejected (LibraryErrorOf r)
  | Uncaught e => Uncaught e
  | Pending => Pending
  end.

(** One more reading of the clock. *)
Definition tick (st : State) : State :=
  {| ticks := S (ticks st); sent := sent st |}.

(** ** The other lookups of the class *)

Definition next_hours_request (this : Market) : Request :=
  {| uri := Some (JStr (nextTradingDay (hours this))); qs := None |}.

Definition getNextTradingHours (this : Market) : Async TradingHours :=
  answer <- request (next_hours_request this) ;;
  handle answer (fun res => in_callback (parseHours (Some res))).

Definition previous_hours_request (this : Market) : Request :=
  {| uri := Some (JStr (previousTradingDay (hours this))); qs := None |}.

Definition getPreviousTradingHours (this : Market) : Async TradingHours :=
  answer <- request (previous_hours_request this) ;;
  handle answer (fun res => in_callback (parseHours (Some res))).


Definition getExtendedOpen (this : Market) : option JsDate :=
  extendedOpen (hours this).
Definition getExtendedClose (this : Market) : option JsDate :=
  extendedClose (hours this).

Definition isOpenToday (this : Market) : bool := isOpen (hours this).

(** [moment().isBefore(x)] at the instant [now]: false when [x] is [null]
    or an invalid date. *)
Definition isBefore (now : Z) (x : option JsDate) : bool :=
  match x with
  | Some (DateAt t) => now <? t
  | _ => false
  end.

(** [moment().isAfter(a) && moment().isBefore(b)]: the clock is read a
    second time only when the first test holds. *)
Definition between (a b : option JsDate) : Async bool :=
  now <- moment ;;
  if isAfter now a then (now' <- moment ;; ret (isBefore now' b))
  else ret false.

Definition isOpenNow (this : Market) : Async bool :=
  between (getOpen this) (getClose this).

Definition isExtendedOpenNow (this : Market) : Async bool :=
  between (getExtendedOpen this) (getExtendedClose this).

(** The date an iteration asks for when it makes the k-th reading of the
    clock. *)
Definition candidate (days : Z) (k : nat) : Z :=
  moment_add_days (clock k) days.

(** The market is closed on the dates of the [n] iterations that begin
    with the [t]-th reading of the clock. *)
Definition closed_days (this : Market) (days : Z) (t n : nat) : Prop :=
  forall i, (i < n)%nat ->
    exists hours, hours_reply this (candidate days (t + i)) = Resolved hours
                  /\ isOpen hours = false.

(** The state after [n] iterations that began at the state [st]. *)
Definition after_days (this : Market) (days : Z) (st : State) (n : nat) : State :=
  {| ticks := ticks st + n;
     sent := sent st
             ++ map (fun i => hours_request this (candidate days (ticks st + i)))
                    (seq 0 n) |}.

End Class_.

End Market.

(* ================================================================== *)
(** * A concrete host *)
(* ================================================================== *)

(** A host whose local time is UTC, for running the code on examples.
    Dates follow the proleptic Gregorian calendar; a day has 86400000
    milliseconds. *)
Module Host.

Definition ms_per_day : Z := 86400000.

(** The day number (days since 1970-01-01) of a civil date. *)
Definition days_from_civil (y m d : Z) : Z :=
  let y := if m <=? 2 then y - 1 else y in
  let era := y / 400 in
  let yoe := y - era * 400 in
  let doy := (153 * (if 2 <? m then m - 3 else m + 9) + 2) / 5 + d - 1 in
  let doe := yoe * 365 + yoe / 4 - yoe / 100 + doy in
  era * 146097 + doe - 719468.

(** The civil date of a day number. *)
Definition civil_from_days (z : Z) : Z * Z * Z :=
  let z := z + 719468 in
  let era := z / 146097 in
  let doe := z - era * 146097 in
  let yoe := (doe - doe / 1460 + doe / 36524 - doe / 146096) / 365 in
  let doy := doe - (365 * yoe + yoe / 4 - yoe / 100) in
  let mp := (5 * doy + 2) / 153 in
  let d := doy - (153 * mp + 2) / 5 + 1 in
  let m := if mp <? 10 then mp + 3 else mp - 9 in
  let y := yoe + era * 400 in
  (if m <=? 2 then y + 1 else y, m, d).

(** The instant of a civil date and time of day. *)
Definition instant (y m d hh mm : Z) : Z :=
  days_from_civil y m d * ms_per_day + (hh * 60 + mm) * 60000.

Definition dec (n : Z) : string := NilZero.string_of_int (Z.to_int n).

Definition digits (s : string) : option Z :=
  option_map Z.of_uint (NilZero.uint_of_string s).

Definition pad2 (n : Z) : string :=
  if n <? 10 then "0" ++ dec n else dec n.

Definition pad4 (n : Z) : string :=
  if n <? 10 then "000" ++ dec n
  else if n <? 100 then "00" ++ dec n
  else if n <? 1000 then "0" ++ dec n
  else dec n.

(** [moment(t).format("YYYY-MM-DD")], for the years 0 to 9999. *)
Definition format_date (t : Z) : string :=
  let '(y, m, d) := civil_from_days (t / ms_per_day) in
  pad4 y ++ "-" ++ pad2 m ++ "-" ++ pad2 d.

(** [moment(t).add(days, 'days')]. *)
Definition add_days (t days : Z) : Z := t + days * ms_per_day.

Definition in_range (lo x hi : Z) : bool := (lo <=? x) && (x <=? hi).

(** The date strings read here: "YYYY-MM-DD" and "YYYY-MM-DDTHH:MM".
    Any other string counts as an invalid date. *)
Definition parse_date (s : string) : JsDate :=
  match digits (substring 0 4 s), digits (substring 5 2 s),
        digits (substring 8 2 s) with
  | Some y, Some m, Some d =>
      if negb ((substring 4 1 s =? "-")%string && (substring 7 1 s =? "-")%string
               && in_range 1 m 12 && in_range 1 d 31)
      then InvalidDate
      else if (String.length s =? 10)%nat then DateAt (instant y m d 0 0)
      else
        match digits (substring 11 2 s), digits (substring 14 2 s) with
        | Some hh, Some mm =>
            if (String.length s =? 16)%nat
               && (substring 10 1 s =? "T")%string
               && (substring 13 1 s =? ":")%string
               && in_range 0 hh 23 && in_range 0 mm 59
            then DateAt (instant y m d hh mm)
            else InvalidDate
        | _, _ => InvalidDate
        end
  | _, _, _ => InvalidDate
  end.

(** [new Date(v)]: [undefined] is invalid, [null] and [false] are the
    epoch, a number is a time value, a string is parsed. *)
Definition new_Date (v : Value) : JsDate :=
  match v with
  | None => InvalidDate
  | Some JNull => DateAt 0
  | Some (JBool b) => DateAt (if b then 1 else 0)
  | Some (JNum n) => DateAt n
  | Some (JStr s) => parse_date s
  | Some _ => InvalidDate
  end.

(** [String(v)]. *)
Fixpoint to_string (j : Json) : string :=
  match j with
  | JNull => "null"
  | JBool b => if b then "true" else "false"
  | JNum n => dec n
  | JStr s => s
  | JArr elems =>
      let element (e : Json) : string :=
        match e with JNull => "" | _ => to_string e end in
      (fix join (l : list Json) : string :=
         match l with
         | [] => ""
         | [e] => element e
         | e :: l' => element e ++ "," ++ join l'
         end) elems
  | JObj _ => "[object Object]"
  end.

Definition String_ (v : Value) : string :=
  match v with
  | None => "undefined"
  | Some j => to_string j
  end.

Definition quote_mark : string := String "034"%char EmptyString.

(** A string between quotes, with the quote and the backslash escaped. *)
Fixpoint escape (s : string) : string :=
  match s with
  | EmptyString => EmptyString
  | String c s' =>
      if (Ascii.eqb c "034" || Ascii.eqb c "092")%char
      then String "092"%char (String c (escape s'))
      else String c (escape s')
  end.

Definition quoted (s : string) : string := quote_mark ++ escape s ++ quote_mark.

(** [JSON.stringify(j)], without control characters in strings. *)
Fixpoint stringify (j : Json) : string :=
  match j with
  | JNull => "null"
  | JBool b => if b then "true" else "false"
  | JNum n => dec n
  | JStr s => quoted s
  | JArr elems =>
      "[" ++ (fix join (l : list Json) : string :=
                match l with
                | [] => ""
                | [e] => stringify e
                | e :: l' => stringify e ++ "," ++ join l'
                end) elems ++ "]"
  | JObj props =>
      "{" ++ (fix join (l : list (string * Json)) : string :=
                match l with
                | [] => ""
                | [(k, v)] => quoted k ++ ":" ++ stringify v
                | (k, v) :: l' => quoted k ++ ":" ++ stringify v ++ "," ++ join l'
                end) props ++ "}"
  end.

(** [JSON.parse] on the bodies that serialise one of the [payloads];
    every other body counts as one that is not JSON. *)
Definition parse_known (payloads : list Json) (body : string) : option Json :=
  find (fun j => (stringify j =? body)%string) payloads.

(** The runtime of the examples.  A number is named by the value it is
    converted from. *)
Definition runtime (payloads : list Json) : Runtime := {|
  JsNumber := Value;
  Number := fun v => v;
  JSON_parse := parse_known payloads;
  JSON_stringify := stringify;
  Date_new := new_Date;
  js_String := String_;
  moment_add_days := add_days;
  moment_format := format_date
|}.

(** A network that answers from a table of addresses and otherwise fails
    to connect; a clock that stands still at [now]. *)
Definition world (answers : list (string * TransportOutcome)) (now : Z) : World := {|
  net := fun r =>
    match uri r with
    | Some (JStr address) =>
        match assoc address answers with
        | Some answer => answer
        | None => TransportError "ENOTFOUND"
        end
    | _ => TransportError "options.uri is a required argument"
    end;
  clock := fun _ => now
|}.

Definition start : State := {| ticks := 0; sent := [] |}.

End Host.

(* ================================================================== *)
(** * Examples to run the code on *)
(* ================================================================== *)

Module Scenario.

Import Host.

Definition str (s : string) : Value := Some (JStr s).

(** ** Alpha Vantage *)

Definition meta_data : Json := JObj [("1. Information", JStr "sample")].

Definition bar (field value : string) : Json := JObj [(field, JStr value)].

(** A price series whose keys are not in the order of their dates. *)
Definition series_B : list (string * Json) :=
  [("2024-01-02", bar "4. close" "100.5");
   ("2024-01-03", bar "4. close" "101.0");
   ("2024-01-01", bar "4. close" "99.0")].

Definition payload_B : Json :=
  JObj [("Meta Data", meta_data); ("Time Series (5min)", JObj series_B)].

(** An indicator series with the newest bar first. *)
Definition series_sma : list (string * Json) :=
  [("2024-01-02", bar "SMA" "100.5");
   ("2024-01-01", bar "SMA" "99.0")].

Definition payload_sma : Json :=
  JObj [("Meta Data", meta_data); ("Technical Analysis: SMA", JObj series_sma)].

Definition payload_matches : Json :=
  JObj [("bestMatches", JArr [JObj [("1. symbol", JStr "MSFT")]])].

Definition payloads : list Json := [payload_B; payload_sma; payload_matches].

Definition overload_page : string := "<html>application-error.html...</html>".
Definition broken_page : string := "<html>maintenance</html>".

Definition runtime_av : Runtime := runtime payloads.

(** A world in which the vendor answers every query with [answer]. *)
Definition world_av (answer : TransportOutcome) : World :=
  world [(AlphaVantage.url, answer)] 0.

Definition ok (body : string) : TransportOutcome := HttpResult 200 body.

Definition world_B : World := world_av (ok (stringify payload_B)).
Definition world_sma : World := world_av (ok (stringify payload_sma)).
Definition world_overloaded : World := world_av (ok overload_page).
Definition world_broken : World := world_av (ok broken_page).

Definition api_key : Value := str "demo".

(** ** Markets *)

(** Modelled from the spec: [Robinhood.handleResponse] is not part of the
    sources; section 4.1 has a transport error fail with its cause, a body
    with the overload marker fail as overloaded, a status other than 200
    fail with the body, a body that is not JSON fail as malformed, and any
    other answer succeed with the parsed payload. *)
Definition classify (R : Runtime) (answer : TransportOutcome) (token : Value)
  : Market.Classified :=
  match answer with
  | TransportError cause => Market.Failure (TransportCause cause)
  | HttpResult statusCode body =>
      if negb (indexOf body "application-error.html" =? -1) then
        Market.Failure (LibraryError "try again")
      else if negb (statusCode =? 200) then Market.Failure (RawBody body)
      else match JSON_parse body with
           | None => Market.Failure (Malformed body)
           | Some payload => Market.Success payload
           end
  end.

Definition robinhood (R : Runtime) : Market.Robinhood := {|
  Market.handleResponse := classify R;
  Market.robinhood_url := "https://api.robinhood.com"
|}.

Definition hours_url (day : string) : string :=
  "https://api.robinhood.com/markets/XNAS/hours/" ++ day ++ "/".

Definition or_null (s : option string) : Json :=
  match s with
  | None => JNull
  | Some s => JStr s
  end.

(** The hours of one day as the vendor sends them. *)
Definition hours_payload (day : string) (opens closes : option string) : Json :=
  JObj [("date", JStr day);
        ("is_open", JBool (match opens with Some _ => true | None => false end));
        ("opens_at", or_null opens);
        ("closes_at", or_null closes);
        ("extended_opens_at", JNull);
        ("extended_closes_at", JNull);
        ("previous_open_hours", JStr (hours_url "2024-02-29"));
        ("next_open_hours", JStr (hours_url "2024-03-04"))].

Definition closed_0301 : Json := hours_payload "2024-03-01" None None.
Definition closed_0302 : Json := hours_payload "2024-03-02" None None.
Definition closed_0303 : Json := hours_payload "2024-03-03" None None.
Definition open_0304 : Json :=
  hours_payload "2024-03-04" (Some "2024-03-04T09:30") (Some "2024-03-04T16:00").

Definition market_url : string := "https://api.robinhood.com/markets/XNAS/".

Definition market_fields : list (string * Json) :=
  [("website", JStr "www.nasdaq.com");
   ("city", JStr "New York");
   ("name", JStr "NASDAQ - All Markets");
   ("country", JStr "United States of America");
   ("acronym", JStr "NASDAQ");
   ("timezone", JStr "US/Eastern");
   ("mic", JStr "XNAS")].

(** A market payload that names the address of today's hours, and one
    that does not. *)
Definition market_with_ref : Json :=
  JObj (market_fields ++ [("todays_hours", JStr (hours_url "2024-03-04"))]).

Definition market_without_ref : Json := JObj market_fields.

Definition runtime_rh : Runtime :=
  runtime [closed_0301; closed_0302; closed_0303; open_0304;
           market_with_ref; market_without_ref].

Definition rh : Market.Robinhood := robinhood runtime_rh.

(** The calendar of scenario A: closed from 2024-03-01 to 2024-03-03, open
    on 2024-03-04 from 09:30 to 16:00. *)
Definition calendar_A : list (string * TransportOutcome) :=
  [(hours_url "2024-03-01", ok (stringify closed_0301));
   (hours_url "2024-03-02", ok (stringify closed_0302));
   (hours_url "2024-03-03", ok (stringify closed_0303));
   (hours_url "2024-03-04", ok (stringify open_0304))].

(** The reference instant of scenario A: 2024-03-01 at 09:00. *)
Definition ref_A : Z := instant 2024 3 1 9 0.

Definition world_A : World := world calendar_A ref_A.

(** The reference instant of a search on the open day, before the open. *)
Definition ref_open_day : Z := instant 2024 3 4 8 0.

Definition world_open_day : World := world calendar_A ref_open_day.

Definition closed_hours : Market.TradingHours := {|
  Market.isOpen := false;
  Market.close := None;
  Market.open := None;
  Market.extendedOpen := None;
  Market.extendedClose := None;
  Market.date := DateAt (instant 2024 3 1 0 0);
  Market.nextTradingDay := hours_url "2024-03-04";
  Market.previousTradingDay := hours_url "2024-02-29"
|}.

Definition open_hours : Market.TradingHours := {|
  Market.isOpen := true;
  Market.close := Some (DateAt (instant 2024 3 4 16 0));
  Market.open := Some (DateAt (instant 2024 3 4 9 30));
  Market.extendedOpen := None;
  Market.extendedClose := None;
  Market.date := DateAt (instant 2024 3 4 0 0);
  Market.nextTradingDay := hours_url "2024-03-04";
  Market.previousTradingDay := hours_url "2024-02-29"
|}.

Definition nasdaq (today : Market.TradingHours) : Market.Market := {|
  Market.website := "www.nasdaq.com";
  Market.city := "New York";
  Market.name := "NASDAQ - All Markets";
  Market.country := "United States of America";
  Market.acronym := "NASDAQ";
  Market.timezone := "US/Eastern";
  Market.mic := "XNAS";
  Market.hours := today
|}.


(** ** Further examples *)

(** The answer of the vendor to a call it does not accept. *)
Definition payload_message : Json :=
  JObj [("Error Message", JStr "Invalid API call.")].

Definition series_null : list (string * Json) :=
  [("2024-01-01", bar "4. close" "99.0"); ("2024-01-02", JNull)].

Definition payload_null_bar : Json :=
  JObj [("Meta Data", meta_data); ("Time Series (5min)", JObj series_null)].

Definition adjusted_bar (close adjusted : string) : Json :=
  JObj [("4. close", JStr close); ("5. adjusted close", JStr adjusted);
        ("7. dividend amount", JStr "0.0000")].

Definition series_daily : list (string * Json) :=
  [("2024-01-03", adjusted_bar "101.0" "100.1");
   ("2024-01-02", adjusted_bar "100.5" "99.6")].

Definition payload_daily : Json :=
  JObj [("Meta Data", meta_data); ("Time Series (Daily)", JObj series_daily)].

Definition payload_sector : Json :=
  JObj [("Meta Data", meta_data);
        ("Rank A: Real-Time Performance", JObj [("Energy", JStr "1.20%")])].

Definition global_quote : Json :=
  JObj [("01. symbol", JStr "MSFT"); ("05. price", JStr "100.5")].

Definition payload_quote : Json := JObj [("Global Quote", global_quote)].

(** A bar that has a field called "date" of its own. *)
Definition bar_dated : Json :=
  JObj [("SMA", JStr "100.5"); ("date", JStr "1999-12-31")].

Definition runtime_more : Runtime :=
  runtime [payload_message; payload_null_bar; payload_daily; payload_sector;
           payload_quote; payload_matches; payload_sma; JNull].

Definition world_of (payload : Json) : World := world_av (ok (stringify payload)).
Definition world_down : World := world_av (TransportError "ECONNREFUSED").
Definition world_denied : World := world_av (HttpResult 403 "Forbidden").

(** A clock that is one day further at each reading, from the reference
    instant of scenario A on. *)
Definition world_drift (answers : list (string * TransportOutcome)) : World := {|
  net := @net (world answers ref_A);
  clock := fun k => ref_A + Z.of_nat k * ms_per_day
|}.

(** The calendar of scenario A with a server error on 2024-03-03. *)
Definition calendar_failing : list (string * TransportOutcome) :=
  [(hours_url "2024-03-01", ok (stringify closed_0301));
   (hours_url "2024-03-02", ok (stringify closed_0302));
   (hours_url "2024-03-03", HttpResult 500 "Internal Server Error");
   (hours_url "2024-03-04", ok (stringify open_0304))].

(** A market payload that already has a field [hours]. *)
Definition market_stale : Json :=
  JObj (market_fields ++ [("hours", JStr "stale");
                          ("todays_hours", JStr (hours_url "2024-03-04"))]).

(** Hours without the fields [is_open] and [opens_at]. *)
Definition hours_partial : Json :=
  JObj [("date", JStr "2024-03-05"); ("closes_at", JNull)].

Definition runtime_rh_more : Runtime :=
  runtime [closed_0301; closed_0302; closed_0303; open_0304;
           market_with_ref; market_stale; hours_partial; JNull].

Definition rh_more : Market.Robinhood := robinhood runtime_rh_more.

Definition world_lookup_missing : World :=
  world [(market_url, HttpResult 404 "Not Found")] ref_A.

(** A lookup whose second answer is the JSON text for [null]. *)
Definition world_null_hours : World :=
  world [(market_url, ok (stringify market_with_ref));
         (hours_url "2024-03-04", ok (stringify JNull))] ref_A.



(** An instant within the session of 2024-03-04. *)
Definition ref_in_session : Z := instant 2024 3 4 10 30.

Definition world_in_session : World := world calendar_A ref_in_session.


(** The fields of an object, none for another value. *)
Definition fields_of (j : Json) : list (string * Json) :=
  match j with
  | JObj fields => fields
  | _ => []
  end.

End Scenario.

(* ================================================================== *)
(** * Properties of the JavaScript model *)
(* ================================================================== *)

Module Js_facts.

Lemma startsWith_app (needle rest : string) :
  startsWith needle (needle ++ rest) = true.
Proof.
  induction needle as [|c needle IH]; simpl.
  - reflexivity.
  - rewrite Ascii.eqb_refl. exact IH.
Qed.

Lemma startsWith_split (needle hay : string) :
  startsWith needle hay = true -> exists rest, hay = needle ++ rest.
Proof.
  revert hay. induction needle as [|c needle IH]; intros hay Hs.
  - exists hay. reflexivity.
  - destruct hay as [|d hay]; simpl in Hs; [discriminate|].
    apply andb_true_iff in Hs. destruct Hs as [Hc Hs].
    apply Ascii.eqb_eq in Hc. subst d.
    destruct (IH _ Hs) as [rest ->]. exists rest. reflexivity.
Qed.

Lemma indexOf_from_eq (needle hay : string) (i : Z) :
  indexOf_from needle hay i =
  if startsWith needle hay then i
  else match hay with
       | EmptyString => -1
       | String _ hay' => indexOf_from needle hay' (i + 1)
       end.
Proof. destruct hay; reflexivity. Qed.

Lemma indexOf_from_found (needle before after : string) (i : Z) :
  0 <= i -> 0 <= indexOf_from needle (before ++ needle ++ after) i.
Proof.
  revert i. induction before as [|c before IH]; intros i Hi.
  - rewrite indexOf_from_eq. simpl. rewrite startsWith_app. exact Hi.
  - change ((String c before ++ needle ++ after)%string)
      with (String c (before ++ needle ++ after)).
    cbn [indexOf_from].
    destruct (startsWith needle (String c (before ++ needle ++ after))).
    + exact Hi.
    + apply IH. lia.
Qed.

Lemma indexOf_from_occurs (needle hay : string) (i : Z) :
  indexOf_from needle hay i <> -1 -> contains hay needle.
Proof.
  revert i. induction hay as [|c hay IH]; intros i Hne.
  - cbn [indexOf_from] in Hne.
    destruct (startsWith needle "") eqn:Hs; [|congruence].
    destruct (startsWith_split _ _ Hs) as [rest ->].
    exists "", rest. reflexivity.
  - cbn [indexOf_from] in Hne.
    destruct (startsWith needle (String c hay)) eqn:Hs.
    + destruct (startsWith_split _ _ Hs) as [rest ->].
      exists "", rest. reflexivity.
    + destruct (IH _ Hne) as (before & after & ->).
      exists (String c before), after. reflexivity.
Qed.

(** [indexOf] finds exactly the strings that occur. *)
Lemma indexOf_contains (hay needle : string) :
  indexOf hay needle <> -1 <-> contains hay needle.
Proof.
  split.
  - apply indexOf_from_occurs.
  - intros (before & after & ->). unfold indexOf.
    pose proof (indexOf_from_found needle before after 0 (Z.le_refl 0)). lia.
Qed.

Lemma marker_test (body marker : string) :
  negb (indexOf body marker =? -1) = true <-> contains body marker.
Proof.
  rewrite <- indexOf_contains, negb_true_iff, Z.eqb_neq. reflexivity.
Qed.

Lemma marker_test_false (body marker : string) :
  negb (indexOf body marker =? -1) = false <-> ~ contains body marker.
Proof.
  rewrite <- marker_test. destruct (negb _); intuition congruence.
Qed.

Lemma assoc_set_same {A : Type} (k : string) (v : A) (o : list (string * A)) :
  assoc k (set k v o) = Some v.
Proof.
  induction o as [|[k' x] o IH]; simpl.
  - rewrite String.eqb_refl. reflexivity.
  - destruct (k =? k')%string eqn:E; simpl; rewrite E; [reflexivity | exact IH].
Qed.

Lemma assoc_set_other {A : Type} (k k' : string) (v : A) (o : list (string * A)) :
  k <> k' -> assoc k (set k' v o) = assoc k o.
Proof.
  intros Hne. induction o as [|[k0 x] o IH]; simpl.
  - apply String.eqb_neq in Hne. rewrite Hne. reflexivity.
  - destruct (k' =? k0)%string eqn:E; simpl.
    + apply String.eqb_eq in E. subst k0.
      apply String.eqb_neq in Hne. rewrite Hne. reflexivity.
    + destruct (k =? k0)%string; [reflexivity | exact IH].
Qed.

End Js_facts.

(* ================================================================== *)
(** * Properties of AlphaVantage *)
(* ================================================================== *)

Module AlphaVantage_spec.

Import AlphaVantage Js_facts.

Section Requester.
Context {R : Runtime} {W : World}.
Variable apiKey : Value.

Lemma requester_unfold qs override st :
  _requester apiKey qs override st =
  _requester_callback override (net (_requester_request apiKey qs))
    (after st (_requester_request apiKey qs)).
Proof. reflexivity. Qed.

(** The callback sends nothing and does not read the clock. *)
Lemma callback_state override answer st :
  snd (_requester_callback override answer st) = st.
Proof.
  unfold _requester_callback.
  destruct answer as [cause | statusCode body]; [reflexivity|].
  destruct (negb (indexOf body marker =? -1)); [reflexivity|].
  destruct (negb (statusCode =? 200)); [reflexivity|].
  destruct (JSON_parse body) as [json|]; [|reflexivity].
  match goal with |- snd (match ?x with _ => _ end _) = _ => destruct x end;
    reflexivity.
Qed.

(** [_requester] sends exactly one request, whatever the answer. *)
Lemma requester_state qs override st :
  snd (_requester apiKey qs override st) = after st (_requester_request apiKey qs).
Proof. rewrite requester_unfold. apply callback_state. Qed.

(** C3.  An answer whose body contains the marker of the vendor's error
    page is rejected as overloaded, whatever its status code: the marker is
    tested before the status. *)
Theorem overload_marker_rejected qs override statusCode body st :
  net (_requester_request apiKey qs) = HttpResult statusCode body ->
  contains body marker ->
  _requester apiKey qs override st =
  (Rejected overloaded, after st (_requester_request apiKey qs)).
Proof.
  intros Hnet Hmark. rewrite requester_unfold, Hnet.
  unfold _requester_callback.
  apply marker_test in Hmark. rewrite Hmark. reflexivity.
Qed.

(** A body with status 200 and without the marker reaches [JSON.parse]. *)
Lemma callback_parses override body st :
  ~ contains body marker ->
  _requester_callback override (HttpResult 200 body) st =
  match JSON_parse body with
  | None => (Uncaught SyntaxError, st)
  | Some json =>
      let objectKey :=
        if truthy (option_map JStr override) then inr override
        else (keys <~ Object_keys (Some json) ;; inr (key_at keys 1)) in
      match (k <~ objectKey ;; get (Some json) (property_key k)) with
      | inl e => (Uncaught e, st)
      | inr v => (Resolved v, st)
      end
  end.
Proof.
  intros Hmark. apply marker_test_false in Hmark.
  unfold _requester_callback. rewrite Hmark.
  change (200 =? 200) with true. cbn [negb].
  destruct (JSON_parse body); [|reflexivity].
  match goal with |- match ?x with _ => _ end _ = _ => destruct x end;
    reflexivity.
Qed.

(** C6, as the code has it.  A body with status 200 and without the marker
    that is not JSON makes [JSON.parse] throw inside the callback of
    [request]: the promise is neither resolved nor rejected. *)
Theorem malformed_body_uncaught qs override body st :
  net (_requester_request apiKey qs) = HttpResult 200 body ->
  ~ contains body marker ->
  JSON_parse body = None ->
  _requester apiKey qs override st =
  (Uncaught SyntaxError, after st (_requester_request apiKey qs)).
Proof.
  intros Hnet Hmark Hparse.
  rewrite requester_unfold, Hnet, callback_parses by exact Hmark.
  rewrite Hparse. reflexivity.
Qed.

(** C10.  For a body with status 200 and without the marker that parses to
    an object, [_requester] without an override resolves with the value of
    the second key of the object, and with an override it resolves with
    the property of that name. *)
Theorem requester_selects_property qs body props st :
  net (_requester_request apiKey qs) = HttpResult 200 body ->
  ~ contains body marker ->
  JSON_parse body = Some (JObj props) ->
  NoDup (map fst props) ->
  (forall k v, nth_error props 1 = Some (k, v) ->
     fst (_requester apiKey qs None st) = Resolved (Some v))
  /\ (forall name, name <> "" -> is_inherited name = false ->
        fst (_requester apiKey qs (Some name) st) = Resolved (assoc name props)).
Proof.
  intros Hnet Hmark Hparse Hnodup. split.
  - intros k v Hsecond.
    rewrite requester_unfold, Hnet, callback_parses by exact Hmark.
    rewrite Hparse. simpl.
    destruct props as [|[k0 v0] [|[k1 v1] rest]]; try discriminate.
    simpl in Hsecond. injection Hsecond as -> ->. simpl.
    inversion Hnodup as [|? ? Hnotin _]; subst.
    destruct (k =? k0)%string eqn:E.
    + apply String.eqb_eq in E. subst k0. exfalso. apply Hnotin. left. reflexivity.
    + rewrite String.eqb_refl. reflexivity.
  - intros name Hname _.
    rewrite requester_unfold, Hnet, callback_parses by exact Hmark.
    rewrite Hparse. simpl.
    apply String.eqb_neq in Hname. rewrite Hname. reflexivity.
Qed.

(** An empty override is falsy and selects the second key as well. *)
Remark empty_override_is_default qs st :
  _requester apiKey qs (Some "") st = _requester apiKey qs None st.
Proof. reflexivity. Qed.

(** Without a second key, the property called "undefined" is read. *)
Remark requester_without_second_key qs body props st :
  net (_requester_request apiKey qs) = HttpResult 200 body ->
  ~ contains body marker ->
  JSON_parse body = Some (JObj props) ->
  nth_error props 1 = None ->
  fst (_requester apiKey qs None st) = Resolved (assoc "undefined" props).
Proof.
  intros Hnet Hmark Hparse Hnone.
  rewrite requester_unfold, Hnet, callback_parses by exact Hmark.
  rewrite Hparse.
  destruct props as [|[k0 v0] [|second rest]]; [reflexivity | reflexivity |].
  discriminate Hnone.
Qed.

End Requester.

(** ** Sorting by date *)

Section Sorting.
Context {A : Type} (key : A -> JsDate).











End Sorting.

(** ** Flattening a keyed series *)

Section Series.
Context {R : Runtime} {W : World}.
Variable apiKey : Value.

Lemma then_resolved {A B : Type} (m : Async A) (f : A -> Exn + B) st a st' b :
  m st = (Resolved a, st') -> f a = inr b -> then_ m f st = (Resolved b, st').
Proof.
  intros Hm Hf. unfold then_, bind. rewrite Hm, Hf. reflexivity.
Qed.

Lemma then_state {A B : Type} (m : Async A) (f : A -> Exn + B) st :
  snd (then_ m f st) = snd (m st).
Proof.
  unfold then_, bind. destruct (m st) as [[a | r | e |] st']; try reflexivity.
  destruct (f a); reflexivity.
Qed.


(** No key of a series passes for the method when none is called
    "hasOwnProperty". *)
Lemma method_visible {A : Type} (ok : string * A -> bool) (series : list (string * A)) :
  (forall entry, ok entry = true -> (fst entry =? "hasOwnProperty")%string = false) ->
  forallb ok series = true ->
  assoc "hasOwnProperty" series = None.
Proof.
  intros Hok. induction series as [|[k o] series IH]; intros Hall; [reflexivity|].
  cbn [forallb] in Hall. apply andb_true_iff in Hall. destruct Hall as [Hk Hrest].
  apply Hok in Hk. cbn [fst] in Hk. cbn [assoc].
  rewrite String.eqb_sym, Hk. apply IH. exact Hrest.
Qed.


Lemma plain_bar_key entry :
  plain_bar entry = true -> (fst entry =? "hasOwnProperty")%string = false.
Proof.
  unfold plain_bar. intros Hbar.
  apply andb_true_iff in Hbar. destruct Hbar as [Hkey _].
  apply negb_true_iff in Hkey. exact Hkey.
Qed.




(** ** Indicator records *)

Lemma date_survives (o : list (string * Json)) (ks : list string)
    (acc : IndicatorRecord) :
  existsb (fun k => (k =? "date")%string) ks = false ->
  assoc "date" (fold_left (fun newObject k =>
                             assign_field k (FValue (assoc k o)) newObject)
                          ks acc)
  = assoc "date" acc.
Proof.
  revert acc. induction ks as [|k ks IH]; intros acc Hno; [reflexivity|].
  cbn [existsb] in Hno. apply orb_false_iff in Hno. destruct Hno as [Hk Hks].
  cbn [fold_left]. rewrite IH by exact Hks.
  unfold assign_field. destruct (k =? "__proto__")%string; [reflexivity|].
  apply assoc_set_other. intros Heq. subst k. discriminate Hk.
Qed.

(** X9.  [_technical] returns the records in the order in which the
    payload enumerates its keys: nothing sorts them. *)
Lemma technical_keeps_key_order (series : list (string * Json)) :
  forallb plain_bar series = true ->
  exists records,
    technical_flatten (Some (JObj series)) = inr records
    /\ map record_date records = map key_date series.
Proof.
  intros Hplain. unfold technical_flatten, for_own. cbn [for_in own_entries].
  rewrite (method_visible plain_bar series plain_bar_key Hplain).
  revert Hplain.
  induction series as [|[k o] series IH]; intros Hplain.
  - exists []. split; reflexivity.
  - cbn [forallb] in Hplain. apply andb_true_iff in Hplain.
    destruct Hplain as [Hbar Hrest].
    destruct (IH Hrest) as (records & Hpush & Hdates).
    unfold plain_bar in Hbar. cbn [snd] in Hbar.
    apply andb_true_iff in Hbar. destruct Hbar as [_ Hbar].
    assert (Hkeys : Object_keys (Some o) = inr (map fst (own_entries o))
                    /\ existsb (fun k => (k =? "date")%string)
                               (map fst (own_entries o)) = false).
    { destruct o; try discriminate; split; try reflexivity;
        apply negb_true_iff; exact Hbar. }
    destruct Hkeys as [Hkeys Hno].
    eexists. cbn [push_each]. unfold technical_record at 1.
    rewrite Hkeys. cbn [bindE]. rewrite Hpush. cbn [bindE].
    split; [reflexivity|].
    cbn [map]. rewrite Hdates. f_equal.
    unfold record_date. rewrite date_survives by exact Hno.
    reflexivity.
Qed.

End Series.

(** ** The queries of the indicators *)

Section Queries.
Context {R : Runtime} {W : World}.
Variable apiKey : Value.

Lemma last_query_after st r :
  last_query (after st r) = match qs r with Some q => q | None => [] end.
Proof.
  unfold last_query, after. cbn [sent]. rewrite rev_unit.
  destruct r as [u [q|]]; reflexivity.
Qed.

(** The query [_technical] emits: the base query, the extra parameters,
    then the key and the data type. *)
Lemma technical_emits type symbol interval timePeriod seriesType extra st :
  last_query (snd (_technical apiKey type symbol interval timePeriod seriesType
                              extra st))
  = set "datatype" (Some (JStr "json"))
      (set "apikey" apiKey
         (technical_query type symbol interval timePeriod seriesType extra)).
Proof.
  unfold _technical. rewrite then_state, requester_state, last_query_after.
  reflexivity.
Qed.

(** C2, as the code has it.  When [slowPeriod] is [null], the ten-parameter
    [macd] emits the slow-period default 26 as [slowperiod], whatever the
    fast period is. *)
Theorem macd_null_slow_period symbol interval timePeriod seriesType
    fastPeriod signalPeriod fastMaType slowMaType signalMaType st :
  assoc "slowperiod"
    (last_query (snd (macd apiKey symbol interval timePeriod seriesType
                           fastPeriod null signalPeriod
                           fastMaType slowMaType signalMaType st)))
  = Some (num 26).
Proof. unfold macd. rewrite technical_emits. reflexivity. Qed.

(** X25.  A slow period that is not [null] is dropped: [slowperiod]
    carries the fast period as it was passed. *)
Remark macd_slow_period_dropped symbol interval timePeriod seriesType
    fastPeriod slowPeriod signalPeriod fastMaType slowMaType signalMaType st :
  is_not_null slowPeriod = true ->
  assoc "slowperiod"
    (last_query (snd (macd apiKey symbol interval timePeriod seriesType
                           fastPeriod slowPeriod signalPeriod
                           fastMaType slowMaType signalMaType st)))
  = Some fastPeriod.
Proof.
  intros Hslow. unfold macd. rewrite technical_emits.
  unfold if_not_null. rewrite Hslow. reflexivity.
Qed.

Lemma bbands_defaults symbol interval timePeriod seriesType st :
  extras (last_query (snd (bbands apiKey symbol interval timePeriod seriesType
                                  null null null st)))
  = [("nbdevup", num 2); ("nbdevdn", num 2); ("matype", num 0)].
Proof. unfold bbands. rewrite technical_emits. reflexivity. Qed.

Lemma macd_defaults symbol interval timePeriod seriesType st :
  extras (last_query (snd (macd apiKey symbol interval timePeriod seriesType
                                null null null null null null st)))
  = [("fastperiod", num 12); ("slowperiod", num 26); ("signalperiod", num 9);
     ("fastmatype", num 0); ("slowmatype", num 0); ("signalmatype", num 0)].
Proof. unfold macd. rewrite technical_emits. reflexivity. Qed.

Lemma stoch_defaults symbol interval timePeriod seriesType st :
  extras (last_query (snd (stoch apiKey symbol interval timePeriod seriesType
                                 null null null null null st)))
  = [("fastkperiod", num 12); ("slowkperiod", num 26); ("slowdperiod", num 9);
     ("slowkmatype", num 0); ("slowdmatype", num 0)].
Proof. unfold stoch. rewrite technical_emits. reflexivity. Qed.

(** C7, where the code departs from it.  With every extra parameter
    [null], [stochf] emits 9 as its moving-average type [fastdmatype]: not
    the default 0 of the other indicators, and outside the range 0 to 8
    that its documentation accepts. *)
Theorem stochf_defaults symbol interval timePeriod seriesType st :
  extras (last_query (snd (stochf apiKey symbol interval timePeriod seriesType
                                  null null null st)))
  = [("fastkperiod", num 12); ("fastdperiod", num 26); ("fastdmatype", num 9)].
Proof. unfold stochf. rewrite technical_emits. reflexivity. Qed.

Lemma stochRSI_defaults symbol interval timePeriod seriesType st :
  extras (last_query (snd (stochRSI apiKey symbol interval timePeriod seriesType
                                    null null null st)))
  = [("fastkperiod", num 12); ("fastdperiod", num 26); ("fastdmatype", num 9)].
Proof. unfold stochRSI. rewrite technical_emits. reflexivity. Qed.

End Queries.

(** ** The properties on the examples *)

Import Scenario.

Lemma overload_marker_rejected_witness :
  @net world_overloaded (_requester_request api_key []) = HttpResult 200 overload_page
  /\ contains overload_page marker
  /\ @_requester runtime_av world_overloaded api_key [] None Host.start
     = (Rejected overloaded, after Host.start (_requester_request api_key [])).
Proof.
  assert (Hnet : @net world_overloaded (_requester_request api_key [])
                 = HttpResult 200 overload_page) by reflexivity.
  assert (Hmark : contains overload_page marker)
    by (exists "<html>", "...</html>"; reflexivity).
  split; [exact Hnet|]. split; [exact Hmark|].
  exact (@overload_marker_rejected runtime_av world_overloaded api_key [] None
           200 overload_page Host.start Hnet Hmark).
Defined.

Lemma broken_page_unmarked : ~ contains broken_page marker.
Proof.
  intros Hc. apply indexOf_contains in Hc. apply Hc. reflexivity.
Defined.

(** A page that is not JSON, sent with status 200 and without the marker,
    is not reported through the failure channel. *)
Lemma malformed_body_counterexample :
  @net world_broken (_requester_request api_key []) = HttpResult 200 broken_page
  /\ ~ contains broken_page marker
  /\ @JSON_parse runtime_av broken_page = None
  /\ ~ exists r,
        fst (@_requester runtime_av world_broken api_key [] None Host.start)
        = Rejected r.
Proof.
  split; [reflexivity|]. split; [exact broken_page_unmarked|].
  split; [reflexivity|]. intros [r Hr]. discriminate Hr.
Qed.

Lemma malformed_body_uncaught_witness :
  @net world_broken (_requester_request api_key []) = HttpResult 200 broken_page
  /\ ~ contains broken_page marker
  /\ @JSON_parse runtime_av broken_page = None
  /\ @_requester runtime_av world_broken api_key [] None Host.start
     = (Uncaught SyntaxError, after Host.start (_requester_request api_key [])).
Proof.
  assert (Hnet : @net world_broken (_requester_request api_key [])
                 = HttpResult 200 broken_page) by reflexivity.
  assert (Hparse : @JSON_parse runtime_av broken_page = None) by reflexivity.
  split; [exact Hnet|]. split; [exact broken_page_unmarked|].
  split; [exact Hparse|].
  exact (@malformed_body_uncaught runtime_av world_broken api_key [] None
           broken_page Host.start Hnet broken_page_unmarked Hparse).
Defined.

Lemma payload_B_unmarked : ~ contains (Host.stringify payload_B) marker.
Proof.
  intros Hc. apply indexOf_contains in Hc. apply Hc. reflexivity.
Defined.

Lemma requester_selects_property_witness :
  @net world_B (_requester_request api_key []) = ok (Host.stringify payload_B)
  /\ ~ contains (Host.stringify payload_B) marker
  /\ @JSON_parse runtime_av (Host.stringify payload_B) = Some payload_B
  /\ NoDup ["Meta Data"; "Time Series (5min)"]
  /\ fst (@_requester runtime_av world_B api_key [] None Host.start)
     = Resolved (Some (JObj series_B))
  /\ fst (@_requester runtime_av world_B api_key [] (Some "Meta Data") Host.start)
     = Resolved (Some meta_data).
Proof.
  assert (Hnet : @net world_B (_requester_request api_key [])
                 = ok (Host.stringify payload_B)) by reflexivity.
  assert (Hparse : @JSON_parse runtime_av (Host.stringify payload_B)
                   = Some payload_B) by reflexivity.
  assert (Hnodup : NoDup ["Meta Data"; "Time Series (5min)"]).
  { constructor.
    - intros [Heq | []]. discriminate Heq.
    - constructor; [intros [] | constructor]. }
  destruct (@requester_selects_property runtime_av world_B api_key []
              (Host.stringify payload_B) _ Host.start
              Hnet payload_B_unmarked Hparse Hnodup) as [Hsecond Hnamed].
  split; [exact Hnet|]. split; [exact payload_B_unmarked|].
  split; [exact Hparse|]. split; [exact Hnodup|]. split.
  - exact (Hsecond "Time Series (5min)" (JObj series_B) eq_refl).
  - apply (Hnamed "Meta Data"); [discriminate | reflexivity].
Defined.


(** Scenario B: the keys 2024-01-02, 2024-01-03, 2024-01-01 come out as
    2024-01-01, 2024-01-02, 2024-01-03, each with its close. *)
Example scenario_B_output :
  exists quotes,
    fst (@timeSeriesIntraday runtime_av world_B api_key (str "MSFT") (str "5min")
           Host.start) = Resolved quotes
    /\ map (fun q => (@date runtime_av q, @close runtime_av (price q))) quotes
       = [(DateAt (Host.instant 2024 1 1 0 0), str "99.0");
          (DateAt (Host.instant 2024 1 2 0 0), str "100.5");
          (DateAt (Host.instant 2024 1 3 0 0), str "101.0")].
Proof. eexists. split; reflexivity. Qed.

(** With a fast period of 10 and a [null] slow period, [slowperiod] is
    not the fast period 10. *)
Lemma macd_null_slow_period_counterexample :
  assoc "slowperiod"
    (last_query (snd (@macd runtime_av world_sma api_key (str "MSFT") (str "daily")
                        (num 10) (str "close")
                        (num 10) null null null null null Host.start)))
  <> Some (num 10).
Proof. vm_compute. discriminate. Qed.

(** C5, where the code departs from it.  For a payload that lists the
    newer bar first, [sma] resolves with the newer record first: the
    records are not in ascending order of date. *)
Theorem sma_keeps_payload_order :
  exists records,
    fst (@sma runtime_av world_sma api_key (str "MSFT") (str "daily")
           (num 10) (str "close") Host.start) = Resolved records
    /\ map record_date records
       = [DateAt (Host.instant 2024 1 2 0 0); DateAt (Host.instant 2024 1 1 0 0)]
    /\ ~ ascending record_date records.
Proof.
  eexists. split; [reflexivity|]. split; [reflexivity|].
  intros Hsorted. inversion Hsorted as [|r rs _ Hall]; subst.
  inversion Hall as [|r' rs' Hle _]; subst.
  vm_compute in Hle. apply Hle. reflexivity.
Qed.

(** ** The answers [_requester] rejects or fails on *)

Section Failures.
Context {R : Runtime} {W : World}.
Variable apiKey : Value.

(** X1.  A transport error rejects with its cause after the one request;
    the promise is not resolved. *)
Theorem requester_transport_error qs override cause st :
  net (_requester_request apiKey qs) = TransportError cause ->
  _requester apiKey qs override st
  = (Rejected (TransportCause cause), after st (_requester_request apiKey qs)).
Proof.
  intros Hnet. rewrite requester_unfold, Hnet. reflexivity.
Qed.

(** X2.  A status other than 200, on a body without the marker, rejects
    with the body as it came. *)
Theorem requester_status_rejected qs override statusCode body st :
  net (_requester_request apiKey qs) = HttpResult statusCode body ->
  ~ contains body marker ->
  statusCode <> 200 ->
  _requester apiKey qs override st
  = (Rejected (RawBody body), after st (_requester_request apiKey qs)).
Proof.
  intros Hnet Hmark Hstatus. rewrite requester_unfold, Hnet.
  unfold _requester_callback.
  apply marker_test_false in Hmark. rewrite Hmark.
  apply Z.eqb_neq in Hstatus. rewrite Hstatus. reflexivity.
Qed.

(** X3.  The one request [_requester] sends carries the key of the
    instance and the data type "json", also when the caller's query has
    entries of those names; every other entry of the query is sent as the
    caller gave it. *)
Theorem requester_query_keys query override st :
  exists q,
    sent (snd (_requester apiKey query override st))
    = (sent st ++ [{| uri := Some (JStr url); qs := Some q |}])%list
    /\ assoc "apikey" q = Some apiKey
    /\ assoc "datatype" q = Some (Some (JStr "json"))
    /\ forall k, k <> "apikey" -> k <> "datatype" -> assoc k q = assoc k query.
Proof.
  rewrite requester_state.
  exists (set "datatype" (Some (JStr "json")) (set "apikey" apiKey query)).
  split; [reflexivity|]. split.
  - rewrite assoc_set_other by discriminate. apply assoc_set_same.
  - split; [apply assoc_set_same|].
    intros k Hkey Htype. rewrite !assoc_set_other by assumption. reflexivity.
Qed.

(** X4.  A body that is the JSON text for [null] makes the callback throw
    a [TypeError], with or without an override: the promise is neither
    resolved nor rejected. *)
Theorem requester_null_payload qs override body st :
  net (_requester_request apiKey qs) = HttpResult 200 body ->
  ~ contains body marker ->
  JSON_parse body = Some JNull ->
  _requester apiKey qs override st
  = (Uncaught TypeError, after st (_requester_request apiKey qs)).
Proof.
  intros Hnet Hmark Hparse.
  rewrite requester_unfold, Hnet, callback_parses by exact Hmark.
  rewrite Hparse. cbv zeta.
  destruct (truthy (option_map JStr override)); reflexivity.
Qed.

(** X5.  [sectorPerformance] resolves with the whole parsed payload, not
    with one of its properties. *)
Theorem sectorPerformance_whole_payload body json st :
  net (sector_request apiKey) = HttpResult 200 body ->
  ~ contains body marker ->
  JSON_parse body = Some json ->
  sectorPerformance apiKey st = (Resolved json, after st (sector_request apiKey)).
Proof.
  intros Hnet Hmark Hparse.
  unfold sectorPerformance, bind, request. rewrite Hnet.
  apply marker_test_false in Hmark. rewrite Hmark.
  change (200 =? 200) with true. cbn [negb]. rewrite Hparse. reflexivity.
Qed.

(** An object with fewer than two keys, none called "undefined", makes
    [_requester] resolve with [undefined]. *)
Lemma requester_message qs body props st :
  net (_requester_request apiKey qs) = HttpResult 200 body ->
  ~ contains body marker ->
  JSON_parse body = Some (JObj props) ->
  nth_error props 1 = None ->
  assoc "undefined" props = None ->
  _requester apiKey qs None st
  = (Resolved undefined, after st (_requester_request apiKey qs)).
Proof.
  intros Hnet Hmark Hparse Hkeys Hundef.
  rewrite requester_unfold, Hnet, callback_parses by exact Hmark.
  rewrite Hparse.
  destruct props as [|[k0 v0] [|second rest]]; [reflexivity | | discriminate Hkeys].
  cbn in Hundef |- *. rewrite Hundef. reflexivity.
Qed.

(** X6.  When the vendor answers with an object of fewer than two keys,
    such as its error message, the price series and every indicator
    resolve with an empty array: the message is not reported. *)
Theorem message_resolves_empty body props st :
  (forall qs, net (_requester_request apiKey qs) = HttpResult 200 body) ->
  ~ contains body marker ->
  JSON_parse body = Some (JObj props) ->
  nth_error props 1 = None ->
  assoc "undefined" props = None ->
  (forall symbol interval,
     fst (timeSeriesIntraday apiKey symbol interval st) = Resolved [])
  /\ (forall symbol compact adjusted,
        fst (timeSeriesDaily apiKey symbol compact adjusted st) = Resolved [])
  /\ (forall type symbol interval timePeriod seriesType extra,
        fst (_technical apiKey type symbol interval timePeriod seriesType extra st)
        = Resolved []).
Proof.
  intros Hnet Hmark Hparse Hkeys Hundef.
  assert (Hreq : forall qs,
             _requester apiKey qs None st
             = (Resolved undefined, after st (_requester_request apiKey qs))).
  { intros qs. eapply requester_message; eauto. }
  split; [|split]; intros.
  - unfold timeSeriesIntraday.
    erewrite then_resolved; [reflexivity | apply Hreq | reflexivity].
  - unfold timeSeriesDaily.
    erewrite then_resolved; [reflexivity | apply Hreq | reflexivity].
  - unfold _technical.
    erewrite then_resolved; [reflexivity | apply Hreq | reflexivity].
Qed.

Lemma quote_throws_TypeError symbol k o e :
  intraday_quote symbol k o = inl e -> e = TypeError.
Proof.
  destruct o; unfold intraday_quote; cbn; intros Heq;
    first [discriminate Heq | injection Heq as <-; reflexivity].
Qed.

Lemma push_null_bar symbol (series : list (string * Json)) k :
  In (k, JNull) series ->
  push_each (intraday_quote symbol) series = inl TypeError.
Proof.
  induction series as [|[k' o] series IH]; intros Hin; [destruct Hin|].
  cbn [push_each].
  destruct (intraday_quote symbol k' o) as [e | q] eqn:Hq.
  - apply quote_throws_TypeError in Hq. subst e. reflexivity.
  - destruct Hin as [Heq | Hin].
    + injection Heq as -> ->. discriminate Hq.
    + cbn [bindE]. rewrite (IH Hin). reflexivity.
Qed.

(** X7.  A series with a bar that is [null] makes [timeSeriesIntraday]
    reject with a [TypeError], whatever the other bars hold. *)
Theorem intraday_null_bar_rejected symbol interval series k st st' :
  _requester apiKey (intraday_query symbol interval) None st
    = (Resolved (Some (JObj series)), st') ->
  In (k, JNull) series ->
  timeSeriesIntraday apiKey symbol interval st = (Rejected (Thrown TypeError), st').
Proof.
  intros Hreq Hin. unfold timeSeriesIntraday, then_, bind. rewrite Hreq.
  unfold intraday_flatten, for_own. cbn [for_in own_entries].
  destruct (assoc "hasOwnProperty" series); [reflexivity|].
  rewrite (push_null_bar symbol series k Hin). reflexivity.
Qed.

End Failures.

(** ** Records, daily series, searches and quotes *)

Section Payloads.
Context {R : Runtime} {W : World}.
Variable apiKey : Value.

Lemma fold_assign_untouched (g : string -> Field) (ks : list string)
    (acc : IndicatorRecord) (k : string) :
  ~ In k ks \/ k = "__proto__" ->
  assoc k (fold_left (fun o k' => assign_field k' (g k') o) ks acc) = assoc k acc.
Proof.
  revert acc. induction ks as [|k0 ks IH]; intros acc Hnot; [reflexivity|].
  cbn [fold_left]. rewrite IH.
  - unfold assign_field. destruct (k0 =? "__proto__")%string eqn:Hproto;
      [reflexivity|].
    apply assoc_set_other. intros Heq. subst k0.
    destruct Hnot as [Hnot | ->].
    + apply Hnot. left. reflexivity.
    + discriminate Hproto.
  - destruct Hnot as [Hnot | Heq]; [left | right; exact Heq].
    intros Hin. apply Hnot. right. exact Hin.
Qed.

Lemma fold_assign_lookup (g : string -> Field) (ks : list string)
    (acc : IndicatorRecord) (k : string) :
  In k ks -> k <> "__proto__" ->
  assoc k (fold_left (fun o k' => assign_field k' (g k') o) ks acc) = Some (g k).
Proof.
  intros Hin Hproto. revert acc Hin.
  induction ks as [|k0 ks IH]; intros acc Hin; [destruct Hin|].
  cbn [fold_left].
  destruct (in_dec string_dec k ks) as [Hlater | Hnot].
  - apply IH. exact Hlater.
  - destruct Hin as [-> | Hin]; [|contradiction].
    rewrite fold_assign_untouched by (left; exact Hnot).
    unfold assign_field. apply String.eqb_neq in Hproto. rewrite Hproto.
    apply assoc_set_same.
Qed.

(** X8.  The record of a bar holds every field of the bar other than
    "__proto__" under its name with its value untouched; a field
    "__proto__" of the bar adds no field to the record; the parsed key is
    under "date" unless the bar has a field of that name, which then takes
    its place. *)
Theorem technical_record_verbatim key fields :
  exists record,
    technical_record key (JObj fields) = inr record
    /\ (forall k, In k (map fst fields) -> k <> "__proto__" ->
          assoc k record = Some (FValue (assoc k fields)))
    /\ assoc "__proto__" record = None
    /\ (~ In "date" (map fst fields) ->
        assoc "date" record = Some (FDate (key_date (key, JObj fields)))).
Proof.
  eexists. split; [reflexivity|]. split; [|split].
  - intros k Hin Hproto.
    apply (fold_assign_lookup (fun k' => FValue (assoc k' fields)));
      assumption.
  - rewrite (fold_assign_untouched (fun k' => FValue (assoc k' fields)))
      by (right; reflexivity).
    reflexivity.
  - intros Hnot.
    rewrite (fold_assign_untouched (fun k' => FValue (assoc k' fields)))
      by (left; exact Hnot).
    reflexivity.
Qed.

(** X10.  In [bbands], [stoch], [stochf] and [stochRSI] every parameter
    is decided on its own, whatever the others are: [null] is replaced by
    the default of that parameter, and any other value, [undefined]
    included, is emitted as it was passed. *)
Theorem parameters_decided_one_by_one symbol interval timePeriod seriesType
    a b c d e st :
  let or_default (x : Value) (n : Z) : Value :=
    match x with Some JNull => num n | _ => x end in
  extras (last_query (snd (bbands apiKey symbol interval timePeriod seriesType
                                  a b c st)))
  = [("nbdevup", or_default a 2); ("nbdevdn", or_default b 2);
     ("matype", or_default c 0)]
  /\ extras (last_query (snd (stoch apiKey symbol interval timePeriod seriesType
                                    a b c d e st)))
     = [("fastkperiod", or_default a 12); ("slowkperiod", or_default b 26);
        ("slowdperiod", or_default c 9); ("slowkmatype", or_default d 0);
        ("slowdmatype", or_default e 0)]
  /\ extras (last_query (snd (stochf apiKey symbol interval timePeriod seriesType
                                     a b c st)))
     = [("fastkperiod", or_default a 12); ("fastdperiod", or_default b 26);
        ("fastdmatype", or_default c 9)]
  /\ extras (last_query (snd (stochRSI apiKey symbol interval timePeriod
                                       seriesType a b c st)))
     = [("fastkperiod", or_default a 12); ("fastdperiod", or_default b 26);
        ("fastdmatype", or_default c 9)].
Proof.
  intros or_default.
  assert (Hdefault : forall x k, if_not_null x x (num k) = or_default x k).
  { intros x k. destruct x as [[| | | | |]|]; reflexivity. }
  unfold bbands, stoch, stochf, stochRSI. rewrite !technical_emits.
  repeat split; cbn; rewrite ?Hdefault; reflexivity.
Qed.

(** X11.  [mama] emits its two limits as they were passed, [null]
    included, and the directional indicators emit [undefined] as the series
    type: none of them substitutes a default. *)
Theorem indicators_without_defaults symbol interval timePeriod seriesType
    fastLimit slowLimit st :
  extras (last_query (snd (mama apiKey symbol interval timePeriod seriesType
                                fastLimit slowLimit st)))
  = [("fastlimit", fastLimit); ("slowlimit", slowLimit)]
  /\ assoc "series_type"
       (last_query (snd (minus_di apiKey symbol interval timePeriod st)))
     = Some undefined
  /\ assoc "series_type"
       (last_query (snd (plus_di apiKey symbol interval timePeriod st)))
     = Some undefined
  /\ assoc "series_type"
       (last_query (snd (adx apiKey symbol interval timePeriod st)))
     = Some undefined.
Proof.
  unfold mama, minus_di, plus_di, adx. rewrite !technical_emits.
  repeat split; reflexivity.
Qed.




(** X13.  On an object payload whose [bestMatches] is an array, [search]
    resolves with one match per element, in their order; when the payload
    has no [bestMatches], or holds [null], a boolean, a number or an object
    there, it rejects with a [TypeError]. *)
Theorem search_matches keyword body props st :
  net (_requester_request apiKey (search_query keyword)) = HttpResult 200 body ->
  ~ contains body marker ->
  JSON_parse body = Some (JObj props) ->
  (forall hits,
     assoc "bestMatches" props = Some (JArr hits) ->
     search apiKey keyword st
     = (Resolved (map Build_Match hits),
        after st (_requester_request apiKey (search_query keyword))))
  /\ (match assoc "bestMatches" props with
      | Some (JArr _) | Some (JStr _) => False
      | _ => True
      end ->
      search apiKey keyword st
      = (Rejected (Thrown TypeError),
         after st (_requester_request apiKey (search_query keyword)))).
Proof.
  intros Hnet Hmark Hparse.
  assert (Hrun : search apiKey keyword st
                 = (match iterate (assoc "bestMatches" props) with
                    | inl e => Rejected (Thrown e)
                    | inr hits => Resolved (map Build_Match hits)
                    end,
                    after st (_requester_request apiKey (search_query keyword)))).
  { unfold search, then_, bind.
    rewrite requester_unfold, Hnet, callback_parses by exact Hmark.
    rewrite Hparse. cbn.
    destruct (iterate (assoc "bestMatches" props)); reflexivity. }
  rewrite Hrun. split.
  - intros hits Hhits. rewrite Hhits. reflexivity.
  - destruct (assoc "bestMatches" props) as [[| | | | |]|];
      intros Hcase; first [reflexivity | destruct Hcase].
Qed.


End Payloads.

(** ** These properties on the examples *)

Lemma unmarked (body : string) :
  indexOf body marker = -1 -> ~ contains body marker.
Proof.
  intros Hindex Hc. apply indexOf_contains in Hc. apply Hc. exact Hindex.
Defined.

Lemma requester_transport_error_witness :
  @net world_down (_requester_request api_key []) = TransportError "ECONNREFUSED"
  /\ @_requester runtime_more world_down api_key [] None Host.start
     = (Rejected (TransportCause "ECONNREFUSED"),
        after Host.start (_requester_request api_key [])).
Proof.
  assert (Hnet : @net world_down (_requester_request api_key [])
                 = TransportError "ECONNREFUSED") by reflexivity.
  split; [exact Hnet|].
  exact (@requester_transport_error runtime_more world_down api_key [] None
           "ECONNREFUSED" Host.start Hnet).
Defined.

Lemma requester_status_rejected_witness :
  @net world_denied (_requester_request api_key []) = HttpResult 403 "Forbidden"
  /\ ~ contains "Forbidden" marker
  /\ 403 <> 200
  /\ @_requester runtime_more world_denied api_key [] None Host.start
     = (Rejected (RawBody "Forbidden"),
        after Host.start (_requester_request api_key [])).
Proof.
  assert (Hnet : @net world_denied (_requester_request api_key [])
                 = HttpResult 403 "Forbidden") by reflexivity.
  assert (Hmark : ~ contains "Forbidden" marker) by (apply unmarked; reflexivity).
  assert (Hstatus : 403 <> 200) by discriminate.
  split; [exact Hnet|]. split; [exact Hmark|]. split; [exact Hstatus|].
  exact (@requester_status_rejected runtime_more world_denied api_key [] None
           403 "Forbidden" Host.start Hnet Hmark Hstatus).
Defined.

Lemma requester_null_payload_witness :
  @net (world_of JNull) (_requester_request api_key []) = ok (Host.stringify JNull)
  /\ ~ contains (Host.stringify JNull) marker
  /\ @JSON_parse runtime_more (Host.stringify JNull) = Some JNull
  /\ @_requester runtime_more (world_of JNull) api_key [] (Some "bestMatches")
       Host.start
     = (Uncaught TypeError, after Host.start (_requester_request api_key [])).
Proof.
  assert (Hnet : @net (world_of JNull) (_requester_request api_key [])
                 = ok (Host.stringify JNull)) by reflexivity.
  assert (Hmark : ~ contains (Host.stringify JNull) marker)
    by (apply unmarked; reflexivity).
  assert (Hparse : @JSON_parse runtime_more (Host.stringify JNull) = Some JNull)
    by reflexivity.
  split; [exact Hnet|]. split; [exact Hmark|]. split; [exact Hparse|].
  exact (@requester_null_payload runtime_more (world_of JNull) api_key []
           (Some "bestMatches") _ Host.start Hnet Hmark Hparse).
Defined.

Lemma sectorPerformance_whole_payload_witness :
  @net (world_of payload_sector) (sector_request api_key)
  = ok (Host.stringify payload_sector)
  /\ ~ contains (Host.stringify payload_sector) marker
  /\ @JSON_parse runtime_more (Host.stringify payload_sector) = Some payload_sector
  /\ @sectorPerformance runtime_more (world_of payload_sector) api_key Host.start
     = (Resolved payload_sector, after Host.start (sector_request api_key)).
Proof.
  assert (Hnet : @net (world_of payload_sector) (sector_request api_key)
                 = ok (Host.stringify payload_sector)) by reflexivity.
  assert (Hmark : ~ contains (Host.stringify payload_sector) marker)
    by (apply unmarked; reflexivity).
  assert (Hparse : @JSON_parse runtime_more (Host.stringify payload_sector)
                   = Some payload_sector) by reflexivity.
  split; [exact Hnet|]. split; [exact Hmark|]. split; [exact Hparse|].
  exact (@sectorPerformance_whole_payload runtime_more (world_of payload_sector)
           api_key _ payload_sector Host.start Hnet Hmark Hparse).
Defined.

Lemma message_resolves_empty_witness :
  (forall qs, @net (world_of payload_message) (_requester_request api_key qs)
              = ok (Host.stringify payload_message))
  /\ ~ contains (Host.stringify payload_message) marker
  /\ @JSON_parse runtime_more (Host.stringify payload_message)
     = Some payload_message
  /\ fst (@timeSeriesIntraday runtime_more (world_of payload_message) api_key
            (str "MSFT") (str "5min") Host.start) = Resolved []
  /\ fst (@sma runtime_more (world_of payload_message) api_key
            (str "MSFT") (str "daily") (num 10) (str "close") Host.start)
     = Resolved [].
Proof.
  assert (Hnet : forall qs,
             @net (world_of payload_message) (_requester_request api_key qs)
             = ok (Host.stringify payload_message)) by (intros qs; reflexivity).
  assert (Hmark : ~ contains (Host.stringify payload_message) marker)
    by (apply unmarked; reflexivity).
  assert (Hparse : @JSON_parse runtime_more (Host.stringify payload_message)
                   = Some payload_message) by reflexivity.
  destruct (@message_resolves_empty runtime_more (world_of payload_message)
              api_key _ (fields_of payload_message) Host.start
              Hnet Hmark Hparse eq_refl eq_refl) as (Hintraday & _ & Htechnical).
  split; [exact Hnet|]. split; [exact Hmark|]. split; [exact Hparse|]. split.
  - apply Hintraday.
  - apply (Htechnical "SMA" (str "MSFT") (str "daily") (num 10) (str "close") None).
Defined.

Lemma intraday_null_bar_rejected_witness :
  @_requester runtime_more (world_of payload_null_bar) api_key
     (intraday_query (str "MSFT") (str "5min")) None Host.start
  = (Resolved (Some (JObj series_null)),
     after Host.start
       (_requester_request api_key (intraday_query (str "MSFT") (str "5min"))))
  /\ In ("2024-01-02", JNull) series_null
  /\ fst (@timeSeriesIntraday runtime_more (world_of payload_null_bar) api_key
            (str "MSFT") (str "5min") Host.start)
     = Rejected (Thrown TypeError).
Proof.
  assert (Hreq : @_requester runtime_more (world_of payload_null_bar) api_key
                   (intraday_query (str "MSFT") (str "5min")) None Host.start
                 = (Resolved (Some (JObj series_null)),
                    after Host.start
                      (_requester_request api_key
                         (intraday_query (str "MSFT") (str "5min")))))
    by reflexivity.
  assert (Hin : In ("2024-01-02", JNull) series_null)
    by (right; left; reflexivity).
  split; [exact Hreq|]. split; [exact Hin|].
  rewrite (@intraday_null_bar_rejected runtime_more (world_of payload_null_bar)
             api_key (str "MSFT") (str "5min") series_null "2024-01-02"
             Host.start _ Hreq Hin).
  reflexivity.
Defined.

Lemma technical_keeps_key_order_witness :
  forallb (@plain_bar) series_sma = true
  /\ exists records,
       @technical_flatten runtime_more (Some (JObj series_sma)) = inr records
       /\ map record_date records
          = [DateAt (Host.instant 2024 1 2 0 0); DateAt (Host.instant 2024 1 1 0 0)].
Proof.
  assert (Hplain : forallb (@plain_bar) series_sma = true) by reflexivity.
  split; [exact Hplain|].
  destruct (@technical_keeps_key_order runtime_more series_sma Hplain)
    as (records & Hflat & Hdates).
  exists records. split; [exact Hflat|]. rewrite Hdates. reflexivity.
Defined.

Lemma macd_slow_period_dropped_witness :
  is_not_null (num 30) = true
  /\ assoc "slowperiod"
       (last_query (snd (@macd runtime_more world_down api_key
                           (str "MSFT") (str "daily") (num 10) (str "close")
                           (num 10) (num 30) null null null null Host.start)))
     = Some (num 10).
Proof.
  assert (Hslow : is_not_null (num 30) = true) by reflexivity.
  split; [exact Hslow|].
  exact (@macd_slow_period_dropped runtime_more world_down api_key
           (str "MSFT") (str "daily") (num 10) (str "close")
           (num 10) (num 30) null null null null Host.start Hslow).
Defined.


Lemma search_matches_witness :
  @net (world_of payload_matches) (_requester_request api_key (search_query (str "micro")))
  = ok (Host.stringify payload_matches)
  /\ ~ contains (Host.stringify payload_matches) marker
  /\ @JSON_parse runtime_more (Host.stringify payload_matches) = Some payload_matches
  /\ fst (@search runtime_more (world_of payload_matches) api_key (str "micro")
            Host.start)
     = Resolved [{| hit := JObj [("1. symbol", JStr "MSFT")] |}].
Proof.
  assert (Hnet : @net (world_of payload_matches)
                   (_requester_request api_key (search_query (str "micro")))
                 = ok (Host.stringify payload_matches)) by reflexivity.
  assert (Hmark : ~ contains (Host.stringify payload_matches) marker)
    by (apply unmarked; reflexivity).
  assert (Hparse : @JSON_parse runtime_more (Host.stringify payload_matches)
                   = Some payload_matches) by reflexivity.
  split; [exact Hnet|]. split; [exact Hmark|]. split; [exact Hparse|].
  rewrite (proj1 (@search_matches runtime_more (world_of payload_matches) api_key
                    (str "micro") _ (fields_of payload_matches) Host.start
                    Hnet Hmark Hparse) _ eq_refl).
  reflexivity.
Defined.


End AlphaVantage_spec.

(* ================================================================== *)
(** * Properties of Market *)
(* ================================================================== *)

Module Market_spec.

Import Market.

Section Lookup.
Context {R : Runtime} {W : World} {B : Robinhood}.

Lemma getHoursOn_run this date st :
  getHoursOn this date st
  = (hours_reply this date, after st (hours_request this date)).
Proof.
  unfold getHoursOn, hours_reply, bind, request, handle.
  destruct (handleResponse _ _) as [res | r]; [|reflexivity].
  unfold in_callback. destruct (parseHours (Some res)); reflexivity.
Qed.

End Lookup.

Section Search.
Context {R : Runtime} {W : World} {B : Robinhood}.
Variable ref : Z.
Hypothesis fixed_clock : forall k, clock k = ref.

Variable this : Market.
Variable edge : Edge.
Variable days : Z.

Let date : Z := moment_add_days ref days.
Let reply : Outcome TradingHours := hours_reply this date.

Lemma whilst_found fuel found st :
  whilst fuel this (edge_of edge) days (Some found) st = (Resolved found, st).
Proof. destruct fuel; reflexivity. Qed.

Lemma whilst_step fuel st :
  whilst (S fuel) this (edge_of edge) days None st
  = match reply with
    | Resolved hours =>
        whilst fuel this (edge_of edge) days
          (if isOpen hours then edge_of edge hours else None)
          (after (tick st) (hours_request this date))
    | Rejected r =>
        (Rejected (LibraryErrorOf r), after (tick st) (hours_request this date))
    | Uncaught e => (Uncaught e, after (tick st) (hours_request this date))
    | Pending => (Pending, after (tick st) (hours_request this date))
    end.
Proof.
  cbn [whilst]. unfold bind at 1. unfold moment at 1.
  rewrite fixed_clock. fold (tick st). unfold bind at 1. unfold catch_.
  rewrite getHoursOn_run. fold date. fold reply.
  destruct reply; reflexivity.
Qed.

(** The outcome of the loop: with fuel for one iteration it is the outcome
    of the first iteration, because every iteration asks for the same
    date. *)
Lemma whilst_outcome fuel st :
  fst (whilst fuel this (edge_of edge) days None st)
  = match fuel with
    | O => Pending
    | S _ => iteration_outcome edge reply
    end.
Proof.
  revert st. induction fuel as [|fuel IH]; intros st; [reflexivity|].
  rewrite whilst_step. unfold iteration_outcome.
  destruct reply as [hours | r | e |]; try reflexivity.
  destruct (if isOpen hours then edge_of edge hours else None)
    as [found|] eqn:Hnext.
  - rewrite whilst_found. reflexivity.
  - rewrite IH. destruct fuel; [reflexivity|].
    unfold iteration_outcome. rewrite Hnext. reflexivity.
Qed.

(** While the hours of the date say closed, every iteration reads the
    clock once and sends the same request once more. *)
Lemma whilst_stuck hours fuel st :
  reply = Resolved hours ->
  (if isOpen hours then edge_of edge hours else None) = None ->
  whilst fuel this (edge_of edge) days None st
  = (Pending,
     {| ticks := ticks st + fuel;
        sent := sent st ++ repeat (hours_request this date) fuel |}).
Proof.
  intros Hreply Hnext. revert st.
  induction fuel as [|fuel IH]; intros st.
  - cbn [whilst repeat]. rewrite Nat.add_0_r, app_nil_r.
    destruct st; reflexivity.
  - rewrite whilst_step, Hreply, Hnext, IH.
    unfold after, tick. cbn [ticks sent repeat].
    rewrite <- app_assoc, Nat.add_succ_r. reflexivity.
Qed.

End Search.

Section Sessions.
Context {R : Runtime} {W : World} {B : Robinhood}.
Variable ref : Z.
Hypothesis fixed_clock : forall k, clock k = ref.

(** A search reads the clock once, fixes the offset, and enters the
    loop. *)
Lemma findNextSession_unfold edge fuel this st :
  findNextSession edge fuel this st
  = whilst fuel this (edge_of edge) (start_offset edge this ref) None (tick st).
Proof.
  destruct edge; unfold findNextSession, getNextOpen, getNextClose, bind, moment;
    rewrite fixed_clock; reflexivity.
Qed.

Lemma findNextSession_outcome edge fuel this st :
  fst (findNextSession edge fuel this st)
  = match fuel with
    | O => Pending
    | S _ => iteration_outcome edge (hours_reply this (first_candidate edge this ref))
    end.
Proof.
  rewrite findNextSession_unfold.
  apply (whilst_outcome ref fixed_clock).
Qed.

(** The first date asked for is today plus the start offset, and when the
    market is open on it the search resolves with its edge. *)
Lemma findNextSession_first_day edge fuel this st hours found :
  hours_reply this (first_candidate edge this ref) = Resolved hours ->
  isOpen hours = true ->
  edge_of edge hours = Some found ->
  findNextSession edge (S fuel) this st
  = (Resolved found,
     after (tick (tick st)) (hours_request this (first_candidate edge this ref))).
Proof.
  intros Hreply Hopen Hedge.
  rewrite findNextSession_unfold, (whilst_step ref fixed_clock).
  fold (first_candidate edge this ref). rewrite Hreply, Hopen, Hedge.
  apply whilst_found.
Qed.

(** When the market is closed on the first date, the search asks for that
    same date again in every iteration and never resolves. *)
Lemma findNextSession_never_advances edge fuel this st hours :
  hours_reply this (first_candidate edge this ref) = Resolved hours ->
  isOpen hours = false ->
  findNextSession edge fuel this st
  = (Pending,
     {| ticks := S (ticks st) + fuel;
        sent := sent st
                ++ repeat (hours_request this (first_candidate edge this ref)) fuel |}).
Proof.
  intros Hreply Hclosed.
  rewrite findNextSession_unfold.
  rewrite (whilst_stuck ref fixed_clock this edge _ hours); [reflexivity | exact Hreply |].
  rewrite Hclosed. reflexivity.
Qed.

End Sessions.

Import Scenario.

(** C1, where the code departs from it.  In scenario A the market is
    closed on 2024-03-01 and open on 2024-03-04 from 09:30.  The search for
    the next open asks for 2024-03-01 in every iteration and is still
    pending after any number of them, although the hours of 2024-03-04
    say open at 09:30. *)
Theorem scenario_A_never_advances (fuel : nat) :
  @findNextSession runtime_rh world_A rh EdgeOpen fuel (nasdaq closed_hours)
     Host.start
  = (Pending,
     {| ticks := S fuel;
        sent := repeat {| uri := str (hours_url "2024-03-01"); qs := None |} fuel |})
  /\ @hours_reply runtime_rh world_A rh (nasdaq closed_hours)
       (Host.instant 2024 3 4 9 0)
     = Resolved open_hours
  /\ open open_hours = Some (DateAt (Host.instant 2024 3 4 9 30)).
Proof.
  split; [|split; reflexivity].
  apply (@findNextSession_never_advances runtime_rh world_A rh ref_A
           (fun _ => eq_refl) EdgeOpen fuel (nasdaq closed_hours) Host.start
           closed_hours); reflexivity.
Qed.


(** ** The lookups of a market *)

Section Lookups.
Context {R : Runtime} {W : World} {B : Robinhood}.

Lemma market_callback_run answer market st :
  handleResponse answer null = Success (JObj market) ->
  market_callback answer st
  = (match handleResponse (net (plain (assoc "todays_hours" market))) null with
     | Failure r => Rejected r
     | Success hours =>
         match Market_new (Some (JObj (set "hours" hours market))) with
         | inl e => Uncaught e
         | inr m => Resolved m
         end
     end,
     after st (plain (assoc "todays_hours" market))).
Proof.
  intros Hfirst. unfold market_callback, handle. rewrite Hfirst.
  unfold bind, in_callback, get, ret, request. cbn [own_entries].
  fold (plain (assoc "todays_hours" market)).
  destruct (handleResponse (net (plain (assoc "todays_hours" market))) null)
    as [hours | r]; [|reflexivity].
  cbn [assign own_entries bindE].
  destruct (Market_new (Some (JObj (set "hours" hours market)))); reflexivity.
Qed.

Lemma getByURL_run url st :
  getByURL url st
  = market_callback (net (plain (Some (JStr url)))) (after st (plain (Some (JStr url)))).
Proof. reflexivity. Qed.

(** X15.  When the first answer is classified a failure, [getByMIC] and
    [getByURL] reject with its reason and send no second request. *)
Theorem lookup_first_failure st :
  (forall code r,
     handleResponse (net (market_request code)) null = Failure r ->
     getByMIC code st = (Rejected r, after st (market_request code)))
  /\ (forall url r,
        handleResponse (net (plain (Some (JStr url)))) null = Failure r ->
        getByURL url st = (Rejected r, after st (plain (Some (JStr url))))).
Proof.
  split; intros x r Hfirst.
  - unfold getByMIC, bind, request, market_callback, handle.
    rewrite Hfirst. reflexivity.
  - unfold getByURL, bind, request, market_callback, handle.
    fold (plain (Some (JStr x))). rewrite Hfirst. reflexivity.
Qed.

(** The constructor on an object: every field is read from the payload by
    name, the hours are parsed from its field [hours]. *)
Lemma Market_new_object (market : list (string * Json)) :
  Market_new (Some (JObj market))
  = match parseHours (assoc "hours" market) with
    | inl e => inl e
    | inr today =>
        inr {| website := js_String (assoc "website" market);
               city := js_String (assoc "city" market);
               name := js_String (assoc "name" market);
               country := js_String (assoc "country" market);
               acronym := js_String (assoc "acronym" market);
               timezone := js_String (assoc "timezone" market);
               mic := js_String (assoc "mic" market);
               hours := today |}
    end.
Proof.
  unfold Market_new, get. cbn [own_entries bindE].
  destruct (parseHours (assoc "hours" market)); reflexivity.
Qed.


(** X17.  When the second answer is classified a success with the payload
    [null], the constructor throws in the callback: [getByURL] is neither
    resolved nor rejected, after its two requests. *)
Theorem lookup_null_hours url market st :
  handleResponse (net (plain (Some (JStr url)))) null = Success (JObj market) ->
  handleResponse (net (plain (assoc "todays_hours" market))) null = Success JNull ->
  getByURL url st
  = (Uncaught TypeError,
     after (after st (plain (Some (JStr url))))
           (plain (assoc "todays_hours" market))).
Proof.
  intros Hfirst Hsecond.
  rewrite getByURL_run, (market_callback_run _ market _ Hfirst), Hsecond.
  rewrite Market_new_object, Js_facts.assoc_set_same. reflexivity.
Qed.



(** X20.  The address [getNextTradingHours] and [getPreviousTradingHours]
    ask is the string made of [next_open_hours] and [previous_open_hours]
    of the hours payload the market was built from, also when the payload
    has no such field. *)
Theorem adjacent_hours_address this fields today st :
  parseHours (Some (JObj fields)) = inr today ->
  hours this = today ->
  sent (snd (getNextTradingHours this st))
  = (sent st
     ++ [plain (Some (JStr (js_String (assoc "next_open_hours" fields))))])%list
  /\ sent (snd (getPreviousTradingHours this st))
     = (sent st
        ++ [plain (Some (JStr (js_String (assoc "previous_open_hours" fields))))])%list.
Proof.
  intros Hparse Htoday.
  assert (Hnext : nextTradingDay today
                  = js_String (assoc "next_open_hours" fields)
                  /\ previousTradingDay today
                     = js_String (assoc "previous_open_hours" fields)).
  { injection Hparse as <-. split; reflexivity. }
  destruct Hnext as [Hnext Hprevious].
  unfold getNextTradingHours, getPreviousTradingHours, bind, request, handle,
    next_hours_request, previous_hours_request, plain.
  rewrite Htoday, Hnext, Hprevious. split.
  - destruct (handleResponse _ _) as [res | r]; [|reflexivity].
    unfold in_callback. destruct (parseHours (Some res)); reflexivity.
  - destruct (handleResponse _ _) as [res | r]; [|reflexivity].
    unfold in_callback. destruct (parseHours (Some res)); reflexivity.
Qed.


End Lookups.

(** ** The session of today *)

Section Now.
Context {R : Runtime} {W : World} {B : Robinhood}.
Variable ref : Z.
Hypothesis fixed_clock : forall k, clock k = ref.

Lemma between_fixed a b st :
  fst (between a b st) = Resolved (isAfter ref a && isBefore ref b)
  /\ sent (snd (between a b st)) = sent st.
Proof.
  unfold between, bind, moment. rewrite fixed_clock.
  destruct (isAfter ref a); cbn [andb]; [|split; reflexivity].
  unfold bind, moment, ret. cbn [ticks]. rewrite fixed_clock.
  split; reflexivity.
Qed.

Lemma strictly_between a b :
  isAfter ref a && isBefore ref b = true
  <-> exists o c, a = Some (DateAt o) /\ b = Some (DateAt c) /\ o < ref < c.
Proof.
  split.
  - intros Hboth. apply andb_true_iff in Hboth. destruct Hboth as [Ha Hb].
    destruct a as [[|o]|], b as [[|c]|]; simpl in Ha, Hb; try discriminate.
    exists o, c. apply Z.ltb_lt in Ha, Hb. repeat split; assumption.
  - intros (o & c & -> & -> & Ho & Hc). simpl.
    apply andb_true_iff. split; apply Z.ltb_lt; assumption.
Qed.

(** X21.  With the clock at one instant, [isOpenNow] is true exactly when
    today's open and close are both valid dates and the instant lies
    strictly between them; it is false at the open itself, and the flag
    [isOpen] plays no part.  [isExtendedOpenNow] is the same on the
    extended hours.  Neither sends a request. *)
Theorem open_now_strictly_between this st :
  (fst (isOpenNow this st) = Resolved true
   <-> exists o c, getOpen this = Some (DateAt o)
                   /\ getClose this = Some (DateAt c) /\ o < ref < c)
  /\ (fst (isExtendedOpenNow this st) = Resolved true
      <-> exists o c, getExtendedOpen this = Some (DateAt o)
                      /\ getExtendedClose this = Some (DateAt c) /\ o < ref < c)
  /\ sent (snd (isOpenNow this st)) = sent st
  /\ sent (snd (isExtendedOpenNow this st)) = sent st.
Proof.
  unfold isOpenNow, isExtendedOpenNow.
  destruct (between_fixed (getOpen this) (getClose this) st) as [Hn Hs].
  destruct (between_fixed (getExtendedOpen this) (getExtendedClose this) st)
    as [Hx Hxs].
  rewrite Hn, Hx, <- !strictly_between.
  repeat split; try assumption; intros Heq;
    first [injection Heq as Heq; exact Heq | rewrite Heq; reflexivity].
Qed.

End Now.

(** ** The search under a clock that moves *)

Section Clock.
Context {R : Runtime} {W : World} {B : Robinhood}.
Variable this : Market.
Variable edge : Edge.
Variable days : Z.

Lemma whilst_step_clock fuel st :
  whilst (S fuel) this (edge_of edge) days None st
  = match hours_reply this (candidate days (ticks st)) with
    | Resolved hours =>
        whilst fuel this (edge_of edge) days
          (if isOpen hours then edge_of edge hours else None)
          (after (tick st) (hours_request this (candidate days (ticks st))))
    | Rejected r =>
        (Rejected (LibraryErrorOf r),
         after (tick st) (hours_request this (candidate days (ticks st))))
    | Uncaught e =>
        (Uncaught e,
         after (tick st) (hours_request this (candidate days (ticks st))))
    | Pending =>
        (Pending,
         after (tick st) (hours_request this (candidate days (ticks st))))
    end.
Proof.
  cbn [whilst]. unfold bind at 1. unfold moment at 1.
  fold (tick st). unfold bind at 1. unfold catch_.
  rewrite getHoursOn_run. fold (candidate days (ticks st)).
  destruct (hours_reply this (candidate days (ticks st))); reflexivity.
Qed.

Lemma after_days_0 st : after_days this days st 0 = st.
Proof.
  unfold after_days. cbn [seq map]. rewrite Nat.add_0_r, app_nil_r.
  destruct st; reflexivity.
Qed.

Lemma after_days_S st n :
  after_days this days
    (after (tick st) (hours_request this (candidate days (ticks st)))) n
  = after_days this days st (S n).
Proof.
  unfold after_days, after, tick. cbn [ticks sent].
  rewrite Nat.add_succ_r, <- app_assoc. f_equal. f_equal.
  cbn [seq map app]. rewrite Nat.add_0_r. f_equal.
  rewrite <- seq_shift, map_map. apply map_ext.
  intros i. rewrite Nat.add_succ_r. reflexivity.
Qed.

Lemma after_days_snoc st n :
  after (tick (after_days this days st n))
        (hours_request this (candidate days (ticks st + n)))
  = after_days this days st (S n).
Proof.
  unfold after_days, after, tick. cbn [ticks sent].
  rewrite seq_S, map_app, app_assoc, Nat.add_succ_r. reflexivity.
Qed.

(** The iterations over closed days change nothing but the state. *)
Lemma whilst_skips_closed n fuel st :
  closed_days this days (ticks st) n ->
  whilst (n + fuel) this (edge_of edge) days None st
  = whilst fuel this (edge_of edge) days None (after_days this days st n).
Proof.
  revert st. induction n as [|n IH]; intros st Hclosed.
  - rewrite after_days_0. reflexivity.
  - cbn [Nat.add]. rewrite whilst_step_clock.
    destruct (Hclosed 0%nat (Nat.lt_0_succ n)) as (hours & Hreply & Hflag).
    rewrite Nat.add_0_r in Hreply. rewrite Hreply, Hflag, IH.
    + rewrite after_days_S. reflexivity.
    + intros i Hi. cbn [after tick ticks].
      destruct (Hclosed (S i)) as (h & Hh & Hc); [lia|].
      exists h. rewrite Nat.add_succ_r in Hh. split; assumption.
Qed.

End Clock.

Section Drift.
Context {R : Runtime} {W : World} {B : Robinhood}.

Lemma findNextSession_unfold_clock edge fuel this st :
  findNextSession edge fuel this st
  = whilst fuel this (edge_of edge)
      (start_offset edge this (clock (ticks st))) None (tick st).
Proof. destruct edge; reflexivity. Qed.

(** X22.  Whatever the clock does, the offset in days is fixed at the
    first reading and each iteration asks for the date its own reading of
    the clock gives: after [n] closed dates, the search resolves with the
    edge of the first open date that the clock itself has reached, having
    sent one request per iteration. *)
Theorem search_follows_clock edge this st n fuel hours found :
  let days := start_offset edge this (clock (ticks st)) in
  closed_days this days (S (ticks st)) n ->
  hours_reply this (candidate days (S (ticks st) + n)) = Resolved hours ->
  isOpen hours = true ->
  edge_of edge hours = Some found ->
  findNextSession edge (n + S fuel) this st
  = (Resolved found, after_days this days (tick st) (S n)).
Proof.
  intros days Hclosed Hreply Hopen Hedge.
  rewrite findNextSession_unfold_clock. fold days.
  rewrite whilst_skips_closed by exact Hclosed.
  rewrite whilst_step_clock.
  change (ticks (after_days this days (tick st) n)) with (S (ticks st) + n)%nat.
  rewrite Hreply, Hopen, Hedge, whilst_found.
  f_equal. apply (after_days_snoc this days (tick st) n).
Qed.

(** X23.  A failure of one day's lookup ends the search at once: after
    [n] closed dates, a rejected lookup rejects the search with the reason
    wrapped in a [LibraryError], and no later date is asked for. *)
Theorem search_rejects_on_failure edge this st n fuel r :
  let days := start_offset edge this (clock (ticks st)) in
  closed_days this days (S (ticks st)) n ->
  hours_reply this (candidate days (S (ticks st) + n)) = Rejected r ->
  findNextSession edge (n + S fuel) this st
  = (Rejected (LibraryErrorOf r), after_days this days (tick st) (S n)).
Proof.
  intros days Hclosed Hreply.
  rewrite findNextSession_unfold_clock. fold days.
  rewrite whilst_skips_closed by exact Hclosed.
  rewrite whilst_step_clock.
  change (ticks (after_days this days (tick st) n)) with (S (ticks st) + n)%nat.
  rewrite Hreply. f_equal. apply (after_days_snoc this days (tick st) n).
Qed.

(** X24.  While every date the clock gives is closed, the search is
    pending: after [n] iterations it has sent [n] requests and resolved
    nothing. *)
Theorem search_pending_while_closed edge this st n :
  let days := start_offset edge this (clock (ticks st)) in
  closed_days this days (S (ticks st)) n ->
  findNextSession edge n this st = (Pending, after_days this days (tick st) n).
Proof.
  intros days Hclosed.
  rewrite findNextSession_unfold_clock. fold days.
  rewrite <- (Nat.add_0_r n) at 1.
  rewrite whilst_skips_closed by exact Hclosed. reflexivity.
Qed.

End Drift.

(** ** A search that is repeated *)

Section Repeat.
Context {R : Runtime} {W : World} {B : Robinhood}.
Variable this : Market.
Variable edge : Edge.


(** A clock that stands at one instant gives every invocation the same
    readings. *)
Lemma fixed_clock_same_readings ref st st' :
  (forall k, clock k = ref) ->
  forall i, clock (ticks st' + i) = clock (ticks st + i).
Proof. intros Hfixed i. rewrite !Hfixed. reflexivity. Qed.



End Repeat.

(** ** These properties on the examples *)




Lemma lookup_first_failure_witness :
  @handleResponse rh_more (@net world_lookup_missing (market_request "XNAS")) null
  = Failure (RawBody "Not Found")
  /\ @getByMIC runtime_rh_more world_lookup_missing rh_more "XNAS" Host.start
     = (Rejected (RawBody "Not Found"), after Host.start (market_request "XNAS")).
Proof.
  assert (Hfirst : @handleResponse rh_more
                     (@net world_lookup_missing (market_request "XNAS")) null
                   = Failure (RawBody "Not Found")) by reflexivity.
  split; [exact Hfirst|].
  exact (proj1 (@lookup_first_failure runtime_rh_more world_lookup_missing rh_more
                  Host.start) "XNAS" _ Hfirst).
Defined.


Lemma lookup_null_hours_witness :
  @handleResponse rh_more (@net world_null_hours (plain (str market_url))) null
  = Success market_with_ref
  /\ @handleResponse rh_more
       (@net world_null_hours
          (plain (assoc "todays_hours" (fields_of market_with_ref)))) null
     = Success JNull
  /\ fst (@getByURL runtime_rh_more world_null_hours rh_more market_url Host.start)
     = Uncaught TypeError.
Proof.
  assert (Hfirst : @handleResponse rh_more
                     (@net world_null_hours (plain (str market_url))) null
                   = Success (JObj (fields_of market_with_ref))) by reflexivity.
  assert (Hsecond : @handleResponse rh_more
                      (@net world_null_hours
                         (plain (assoc "todays_hours" (fields_of market_with_ref))))
                      null
                    = Success JNull) by reflexivity.
  split; [exact Hfirst|]. split; [exact Hsecond|].
  rewrite (@lookup_null_hours runtime_rh_more world_null_hours rh_more market_url
             (fields_of market_with_ref) Host.start Hfirst Hsecond).
  reflexivity.
Defined.


Lemma adjacent_hours_address_witness :
  @parseHours runtime_rh_more (Some closed_0301) = inr closed_hours
  /\ hours (nasdaq closed_hours) = closed_hours
  /\ sent (snd (@getNextTradingHours runtime_rh_more world_A rh_more
                  (nasdaq closed_hours) Host.start))
     = [plain (str (hours_url "2024-03-04"))]
  /\ sent (snd (@getPreviousTradingHours runtime_rh_more world_A rh_more
                  (nasdaq closed_hours) Host.start))
     = [plain (str (hours_url "2024-02-29"))].
Proof.
  assert (Hparse : @parseHours runtime_rh_more (Some (JObj (fields_of closed_0301)))
                   = inr closed_hours) by reflexivity.
  assert (Htoday : hours (nasdaq closed_hours) = closed_hours) by reflexivity.
  split; [exact Hparse|]. split; [exact Htoday|].
  exact (@adjacent_hours_address runtime_rh_more world_A rh_more
           (nasdaq closed_hours) (fields_of closed_0301) closed_hours Host.start
           Hparse Htoday).
Defined.

Lemma open_now_strictly_between_witness :
  (forall k, @clock world_in_session k = ref_in_session)
  /\ getOpen (nasdaq open_hours) = Some (DateAt (Host.instant 2024 3 4 9 30))
  /\ getClose (nasdaq open_hours) = Some (DateAt (Host.instant 2024 3 4 16 0))
  /\ Host.instant 2024 3 4 9 30 < ref_in_session < Host.instant 2024 3 4 16 0
  /\ fst (@isOpenNow world_in_session (nasdaq open_hours) Host.start)
     = Resolved true.
Proof.
  assert (Hclock : forall k, @clock world_in_session k = ref_in_session)
    by (intros k; reflexivity).
  assert (Hin : Host.instant 2024 3 4 9 30 < ref_in_session
                < Host.instant 2024 3 4 16 0) by (split; reflexivity).
  split; [exact Hclock|]. split; [reflexivity|]. split; [reflexivity|].
  split; [exact Hin|].
  apply (proj1 (@open_now_strictly_between world_in_session ref_in_session Hclock
                  (nasdaq open_hours) Host.start)).
  exists (Host.instant 2024 3 4 9 30), (Host.instant 2024 3 4 16 0).
  split; [reflexivity|]. split; [reflexivity | exact Hin].
Defined.

Lemma two_closed_days :
  @closed_days runtime_rh (world_drift calendar_A) rh (nasdaq closed_hours) 0 1 2.
Proof.
  intros i Hi. destruct i as [|[|i]].
  - eexists. split; reflexivity.
  - eexists. split; reflexivity.
  - exfalso. apply Nat.succ_lt_mono, Nat.succ_lt_mono in Hi.
    exact (Nat.nlt_0_r _ Hi).
Defined.

Lemma search_follows_clock_witness :
  @closed_days runtime_rh (world_drift calendar_A) rh (nasdaq closed_hours) 0 1 2
  /\ @hours_reply runtime_rh (world_drift calendar_A) rh (nasdaq closed_hours)
       (@candidate runtime_rh (world_drift calendar_A) 0 3)
     = Resolved open_hours
  /\ fst (@findNextSession runtime_rh (world_drift calendar_A) rh EdgeOpen 3
            (nasdaq closed_hours) Host.start)
     = Resolved (DateAt (Host.instant 2024 3 4 9 30))
  /\ sent (snd (@findNextSession runtime_rh (world_drift calendar_A) rh EdgeOpen 3
                  (nasdaq closed_hours) Host.start))
     = [plain (str (hours_url "2024-03-02"));
        plain (str (hours_url "2024-03-03"));
        plain (str (hours_url "2024-03-04"))].
Proof.
  assert (Hreply : @hours_reply runtime_rh (world_drift calendar_A) rh
                     (nasdaq closed_hours)
                     (@candidate runtime_rh (world_drift calendar_A) 0 3)
                   = Resolved open_hours) by reflexivity.
  split; [exact two_closed_days|]. split; [exact Hreply|].
  assert (Hrun : @findNextSession runtime_rh (world_drift calendar_A) rh EdgeOpen 3
                    (nasdaq closed_hours) Host.start
                  = (Resolved (DateAt (Host.instant 2024 3 4 9 30)),
                     @after_days runtime_rh (world_drift calendar_A) rh
                       (nasdaq closed_hours) 0 (tick Host.start) 3))
    by exact (@search_follows_clock runtime_rh (world_drift calendar_A) rh EdgeOpen
                (nasdaq closed_hours) Host.start 2 0 open_hours
                (DateAt (Host.instant 2024 3 4 9 30))
                two_closed_days Hreply eq_refl eq_refl).
  rewrite Hrun. split; reflexivity.
Defined.

Lemma one_closed_day :
  @closed_days runtime_rh (world_drift calendar_failing) rh (nasdaq closed_hours)
     0 1 1.
Proof.
  intros i Hi. destruct i as [|i].
  - eexists. split; reflexivity.
  - exfalso. apply Nat.succ_lt_mono in Hi. exact (Nat.nlt_0_r _ Hi).
Defined.

Lemma search_rejects_on_failure_witness :
  @closed_days runtime_rh (world_drift calendar_failing) rh (nasdaq closed_hours)
     0 1 1
  /\ @hours_reply runtime_rh (world_drift calendar_failing) rh (nasdaq closed_hours)
       (@candidate runtime_rh (world_drift calendar_failing) 0 2)
     = Rejected (RawBody "Internal Server Error")
  /\ @findNextSession runtime_rh (world_drift calendar_failing) rh EdgeOpen 5
       (nasdaq closed_hours) Host.start
     = (Rejected (LibraryErrorOf (RawBody "Internal Server Error")),
        {| ticks := 3;
           sent := [plain (str (hours_url "2024-03-02"));
                    plain (str (hours_url "2024-03-03"))] |}).
Proof.
  assert (Hreply : @hours_reply runtime_rh (world_drift calendar_failing) rh
                     (nasdaq closed_hours)
                     (@candidate runtime_rh (world_drift calendar_failing) 0 2)
                   = Rejected (RawBody "Internal Server Error")) by reflexivity.
  split; [exact one_closed_day|]. split; [exact Hreply|].
  assert (Hrun : @findNextSession runtime_rh (world_drift calendar_failing) rh
                    EdgeOpen 5 (nasdaq closed_hours) Host.start
                  = (Rejected (LibraryErrorOf (RawBody "Internal Server Error")),
                     @after_days runtime_rh (world_drift calendar_failing) rh
                       (nasdaq closed_hours) 0 (tick Host.start) 2))
    by exact (@search_rejects_on_failure runtime_rh (world_drift calendar_failing)
                rh EdgeOpen (nasdaq closed_hours) Host.start 1 3
                (RawBody "Internal Server Error") one_closed_day Hreply).
  rewrite Hrun. reflexivity.
Defined.

Lemma search_pending_while_closed_witness :
  @closed_days runtime_rh (world_drift calendar_A) rh (nasdaq closed_hours) 0 1 2
  /\ @findNextSession runtime_rh (world_drift calendar_A) rh EdgeOpen 2
       (nasdaq closed_hours) Host.start
     = (Pending,
        {| ticks := 3;
           sent := [plain (str (hours_url "2024-03-02"));
                    plain (str (hours_url "2024-03-03"))] |}).
Proof.
  split; [exact two_closed_days|].
  assert (Hrun : @findNextSession runtime_rh (world_drift calendar_A) rh EdgeOpen 2
                    (nasdaq closed_hours) Host.start
                  = (Pending,
                     @after_days runtime_rh (world_drift calendar_A) rh
                       (nasdaq closed_hours) 0 (tick Host.start) 2))
    by exact (@search_pending_while_closed runtime_rh (world_drift calendar_A) rh
                EdgeOpen (nasdaq closed_hours) Host.start 2 two_closed_days).
  rewrite Hrun. reflexivity.
Defined.

End Market_spec.
